(** * Sign classifier and debounce tracker of [script.js]

    A shallow embedding of the two pieces of [script.js] that decide
    something: the geometric classifier [classifyLetterGesture] (with its
    helpers [distance] and [isExtended]) and the debounce logic of
    [onResults] together with [clearTranslation].

    Numbers are JavaScript Numbers, i.e. IEEE 754 binary64 values; they are
    embedded as Rocq's primitive floats, whose comparison is the IEEE one
    (false on NaN) like JavaScript's [<] and [>].  An array access that
    falls outside the array yields [undefined], and reading a property of
    [undefined] throws a TypeError: both are modelled explicitly. *)

From Stdlib Require Import Bool Arith List Ascii String DecimalString Lia.
From Stdlib Require Import Floats.PrimFloat.
From Stdlib Require Import ZArith Floats.SpecFloat Floats.FloatOps Floats.FloatAxioms.
Import ListNotations.

Set Warnings "-inexact-float".
Open Scope string_scope.

(** ** Completions: a value, or a thrown TypeError *)

Inductive completion (A : Type) : Type :=
| Normal (a : A)
| TypeError.
Arguments Normal {A} a.
Arguments TypeError {A}.

Definition bind {A B : Type} (m : completion A) (k : A -> completion B)
  : completion B :=
  match m with
  | Normal a => k a
  | TypeError => TypeError
  end.

Notation "x <- m ;; k" := (bind m (fun x => k))
  (at level 61, m at next level, right associativity).

(** ** Landmarks *)

Module LANDMARK_INDICES.
Definition WRIST := 0.
Definition THUMB_CMC := 1.
Definition THUMB_MCP := 2.
Definition THUMB_PIP := 3.
Definition THUMB_TIP := 4.
Definition INDEX_MCP := 5.
Definition INDEX_PIP := 6.
Definition INDEX_DIP := 7.
Definition INDEX_TIP := 8.
Definition MIDDLE_MCP := 9.
Definition MIDDLE_PIP := 10.
Definition MIDDLE_DIP := 11.
Definition MIDDLE_TIP := 12.
Definition RING_MCP := 13.
Definition RING_PIP := 14.
Definition RING_DIP := 15.
Definition RING_TIP := 16.
Definition PINKY_MCP := 17.
Definition PINKY_PIP := 18.
Definition PINKY_DIP := 19.
Definition PINKY_TIP := 20.
End LANDMARK_INDICES.

(** A landmark object [{x, y, z}] as the detector delivers it. *)
Record Landmark : Type := mkLandmark { x : float; y : float; z : float }.

(** The five finger arrays.  [isExtended] compares its argument with
    [THUMB] by reference and every call passes one of these five constants,
    so a finger is one of five tags and [finger[i]] is a table lookup. *)
Inductive Finger : Type :=
| THUMB | INDEX_FINGER | MIDDLE_FINGER | RING_FINGER | PINKY_FINGER.

Definition finger_indices (f : Finger) : list nat :=
  match f with
  | THUMB => [LANDMARK_INDICES.THUMB_CMC; LANDMARK_INDICES.THUMB_MCP;
              LANDMARK_INDICES.THUMB_PIP; LANDMARK_INDICES.THUMB_TIP]
  | INDEX_FINGER => [LANDMARK_INDICES.INDEX_MCP; LANDMARK_INDICES.INDEX_PIP;
                     LANDMARK_INDICES.INDEX_DIP; LANDMARK_INDICES.INDEX_TIP]
  | MIDDLE_FINGER => [LANDMARK_INDICES.MIDDLE_MCP; LANDMARK_INDICES.MIDDLE_PIP;
                      LANDMARK_INDICES.MIDDLE_DIP; LANDMARK_INDICES.MIDDLE_TIP]
  | RING_FINGER => [LANDMARK_INDICES.RING_MCP; LANDMARK_INDICES.RING_PIP;
                    LANDMARK_INDICES.RING_DIP; LANDMARK_INDICES.RING_TIP]
  | PINKY_FINGER => [LANDMARK_INDICES.PINKY_MCP; LANDMARK_INDICES.PINKY_PIP;
                     LANDMARK_INDICES.PINKY_DIP; LANDMARK_INDICES.PINKY_TIP]
  end.

(** [finger[i]] for the positions the source reads (0, 1 and 3); the finger
    arrays all have four entries, so the default is never used. *)
Definition fidx (f : Finger) (i : nat) : nat := nth i (finger_indices f) 0.

Definition is_THUMB (f : Finger) : bool :=
  match f with THUMB => true | _ => false end.

(** [landmarks[i]]: an element, or [undefined] ([None]) out of range. *)
Definition idx (landmarks : list Landmark) (i : nat) : option Landmark :=
  nth_error landmarks i.

(** Property reads [p.x], [p.y], [p.z]; on [undefined] they throw. *)
Definition get (field : Landmark -> float) (p : option Landmark)
  : completion float :=
  match p with
  | Some l => Normal (field l)
  | None => TypeError
  end.

(** ** GeometryOps *)

(** [Math.pow(b, 2)]: every call in the source passes the literal exponent
    2; the square is taken as the IEEE product. *)
Definition Math_pow2 (b : float) : float := (b * b)%float.

Definition Math_sqrt (v : float) : float := PrimFloat.sqrt v.

(** [a > b] on Numbers. *)
Definition gt (a b : float) : bool := (b <? a)%float.
(** [a < b] on Numbers. *)
Definition lt (a b : float) : bool := (a <? b)%float.

(** The arithmetic of [distance] on two landmark objects. *)
Definition dist (p1 p2 : Landmark) : float :=
  Math_sqrt (Math_pow2 (x p1 - x p2) + Math_pow2 (y p1 - y p2)
             + Math_pow2 (z p1 - z p2))%float.

(** [distance(p1, p2)], left to right as JavaScript evaluates it. *)
Definition distance (p1 p2 : option Landmark) : completion float :=
  x1 <- get x p1 ;; x2 <- get x p2 ;;
  y1 <- get y p1 ;; y2 <- get y p2 ;;
  z1 <- get z p1 ;; z2 <- get z p2 ;;
  Normal (Math_sqrt (Math_pow2 (x1 - x2) + Math_pow2 (y1 - y2)
                     + Math_pow2 (z1 - z2))%float).

Definition isExtended (landmarks : list Landmark) (finger : Finger)
  : completion bool :=
  let mcp := idx landmarks (fidx finger 0) in
  let pip := idx landmarks (fidx finger 1) in
  let tip := idx landmarks (fidx finger 3) in
  if is_THUMB finger then
    tip_z <- get z tip ;; mcp_z <- get z mcp ;;
    let isTipForward := lt tip_z mcp_z in
    distFromCmcToTip <- distance (idx landmarks (fidx THUMB 0)) tip ;;
    distFromCmcToMcp <- distance (idx landmarks (fidx THUMB 0)) mcp ;;
    Normal (gt distFromCmcToTip (distFromCmcToMcp * 1.5)%float
            && isTipForward)
  else
    pip_y <- get y pip ;; tip_y <- get y tip ;;
    let isTipAbovePip := gt pip_y tip_y in
    mcp_y <- get y mcp ;; tip_y' <- get y tip ;;
    let isTipAboveMcp := gt mcp_y tip_y' in
    Normal (isTipAbovePip && isTipAboveMcp).

(** ** GestureClassifier *)

(** The strings ['A'], ['B'], ['C'], ['F'], ['L'] and ['?'] that
    [classifyLetterGesture] returns. *)
Inductive Symbol : Type := A | B | C | F | L | Unknown.

Definition Symbol_eqb (s1 s2 : Symbol) : bool :=
  match s1, s2 with
  | A, A | B, B | C, C | F, F | L, L | Unknown, Unknown => true
  | _, _ => false
  end.

Definition Symbol_str (s : Symbol) : string :=
  match s with
  | A => "A" | B => "B" | C => "C" | F => "F" | L => "L" | Unknown => "?"
  end.

(** [landmarks] is [None] for a null or undefined argument. *)
Definition classifyLetterGesture (landmarks : option (list Landmark))
  : completion Symbol :=
  match landmarks with
  | None => Normal Unknown
  | Some landmarks =>
    if (List.length landmarks =? 0)%nat then Normal Unknown else
    thumbExtended <- isExtended landmarks THUMB ;;
    indexExtended <- isExtended landmarks INDEX_FINGER ;;
    middleExtended <- isExtended landmarks MIDDLE_FINGER ;;
    ringExtended <- isExtended landmarks RING_FINGER ;;
    pinkyExtended <- isExtended landmarks PINKY_FINGER ;;
    let indexCurled := negb indexExtended in
    let middleCurled := negb middleExtended in
    let ringCurled := negb ringExtended in
    let pinkyCurled := negb pinkyExtended in
    let allCurled := indexCurled && middleCurled && ringCurled && pinkyCurled in
    let fourFingersExtended :=
      indexExtended && middleExtended && ringExtended && pinkyExtended in
    handSize <- distance (idx landmarks LANDMARK_INDICES.WRIST)
                         (idx landmarks LANDMARK_INDICES.PINKY_MCP) ;;
    tipDist <- distance (idx landmarks LANDMARK_INDICES.INDEX_TIP)
                        (idx landmarks LANDMARK_INDICES.PINKY_TIP) ;;
    if thumbExtended && indexExtended && middleCurled && ringCurled
       && pinkyCurled
    then Normal L else
    pinchDistanceF <- distance (idx landmarks LANDMARK_INDICES.THUMB_TIP)
                               (idx landmarks LANDMARK_INDICES.INDEX_TIP) ;;
    if lt pinchDistanceF 0.08 && middleExtended && ringExtended
       && pinkyExtended
    then Normal F else
    isB <- (if fourFingersExtended then
              tuckedDist <- distance (idx landmarks LANDMARK_INDICES.THUMB_TIP)
                                     (idx landmarks LANDMARK_INDICES.INDEX_MCP) ;;
              Normal (lt tuckedDist (handSize * 0.25)%float)
            else Normal false) ;;
    if isB then Normal B else
    isC <- (if allCurled then
              if gt tipDist (handSize * 0.5)%float then
                thumbTipDistToIndexBase <-
                  distance (idx landmarks LANDMARK_INDICES.THUMB_TIP)
                           (idx landmarks LANDMARK_INDICES.INDEX_MCP) ;;
                Normal (gt thumbTipDistToIndexBase (handSize * 0.15)%float)
              else Normal false
            else Normal false) ;;
    if isC then Normal C else
    if allCurled then Normal A else
    Normal Unknown
  end.

(** ** StabilityTracker *)

(** The module-level variables [currentTranslation], [lastSign] and
    [stabilityCount].  The counter only ever holds small whole numbers (it
    is shown below to stay under the threshold), so it is a [nat]. *)
Record State : Type := mkState {
  currentTranslation : string;
  lastSign : Symbol;
  stabilityCount : nat
}.

Definition STABILITY_THRESHOLD : nat := 20.

(** The values the three variables are declared with. *)
Definition initial : State := mkState "" Unknown 0.

(** The texts assigned to [statusElement.textContent]. *)
Definition committedText (s : Symbol) : string :=
  "Sign Committed: '" ++ Symbol_str s ++ "'".
Definition changedText (s : Symbol) : string :=
  "Sign changed to: " ++ Symbol_str s ++ ". Holding...".
Definition noHandText : string := "No Hand Detected. Please show your hand.".
Definition warningText (detectedHands : nat) : string :=
  "Warning: Detected " ++ NilEmpty.string_of_uint (Nat.to_uint detectedHands)
  ++ " hands. Focusing on the first one.".
Definition clearedText : string := "Translation Cleared.".

(** A call's effect on the status line: [Some t] when the call assigns
    [statusElement.textContent] (and leaves it at [t]), [None] when it does
    not touch it, so that the line keeps the text it had.  The page elements
    are taken to exist: [onResults] returns at once without them. *)
Definition StatusWrite : Type := option string.

Definition clearTranslation (st : State) : State * StatusWrite :=
  (mkState "" Unknown 0, Some clearedText).

(** The block under [TRANSLATION DEBOUNCE LOGIC] in [onResults], run on the
    sign the classifier returned for the first detected hand. *)
Definition debounce (st : State) (classifiedSign : Symbol)
  : State * StatusWrite :=
  if negb (Symbol_eqb classifiedSign Unknown)
     && Symbol_eqb classifiedSign (lastSign st) then
    let stabilityCount1 := S (stabilityCount st) in
    if (stabilityCount1 =? STABILITY_THRESHOLD)%nat then
      (mkState (currentTranslation st ++ Symbol_str classifiedSign)
               (lastSign st) 1,
       Some (committedText classifiedSign))
    else
      (mkState (currentTranslation st) (lastSign st) stabilityCount1, None)
  else if negb (Symbol_eqb classifiedSign (lastSign st)) then
    (mkState (currentTranslation st) classifiedSign 0,
     Some (changedText classifiedSign))
  else (st, None).

(** The branch of [onResults] taken when no hand is detected, with the
    status text that [detectedHands === 0] selects at the end of the call. *)
Definition noHand (st : State) : State * StatusWrite :=
  (mkState (currentTranslation st) Unknown 0, Some noHandText).

(** [onResults(results)] without the drawing: [multiHandLandmarks] is
    [results.multiHandLandmarks], [None] when the property is missing.  The
    result carries the new state, the sign written to the result element and
    the status write.  A TypeError of the classifier leaves the call before
    any variable is assigned. *)
Definition onResults (st : State)
    (multiHandLandmarks : option (list (list Landmark)))
  : completion (State * Symbol * StatusWrite) :=
  match multiHandLandmarks with
  | Some (landmarks :: others) =>
    let detectedHands := List.length (landmarks :: others) in
    classifiedSign <- classifyLetterGesture (Some landmarks) ;;
    let (st', w) := debounce st classifiedSign in
    Normal (st', classifiedSign,
            if (1 <? detectedHands)%nat then Some (warningText detectedHands)
            else w)
  | _ =>
    let (st', w) := noHand st in
    Normal (st', Unknown, w)
  end.

(** ** Runs of the tracker *)

(** What can happen to the state between two moments: a frame without a
    hand, a frame whose hand was classified as some sign, or a click on the
    clear button.  A frame with a hand is taken with one hand detected;
    with more, [onResults] moves the state the same way and replaces the
    status text by the warning. *)
Inductive Action : Type :=
| Frame (hand : option Symbol)
| Clear.

Definition act (st : State) (a : Action) : State * StatusWrite :=
  match a with
  | Frame (Some classifiedSign) => debounce st classifiedSign
  | Frame None => noHand st
  | Clear => clearTranslation st
  end.

(** The state after a sequence of actions. *)
Fixpoint exec (st : State) (acts : list Action) : State :=
  match acts with
  | [] => st
  | a :: rest => exec (fst (act st a)) rest
  end.

(** The status write of each action of the sequence, in order. *)
Fixpoint writes (st : State) (acts : list Action) : list StatusWrite :=
  match acts with
  | [] => []
  | a :: rest => snd (act st a) :: writes (fst (act st a)) rest
  end.

(** The text on the status line after a sequence of writes, [before] being
    the text it had at the start. *)
Definition shown (before : string) (ws : list StatusWrite) : string :=
  fold_left (fun t w => match w with Some t' => t' | None => t end) ws before.

(** [n] consecutive frames all classified as [s]. *)
Definition updates (s : Symbol) (n : nat) : list Action :=
  repeat (Frame (Some s)) n.

(** Whether a status write announces a commit. *)
Definition isCommitWrite (w : StatusWrite) : bool :=
  match w with
  | Some t => String.prefix "Sign Committed: " t
  | None => false
  end.

(** The debounce invariant: a running streak belongs to a real sign. *)
Definition streak_has_sign (st : State) : Prop :=
  0 < stabilityCount st -> lastSign st <> Unknown.

(** * Definitions used in the statements *)

(** For statements only: the landmark at an index of an array that is long
    enough (the default is never reached there). *)
Definition origin : Landmark := mkLandmark 0 0 0.

Definition landmark (landmarks : list Landmark) (i : nat) : Landmark :=
  nth i landmarks origin.

(** ** Sample hands *)

(** A closed fist seen from the palm side: every fingertip lies lower on
    the image than its PIP joint, the tips are close together. *)
Definition fist : list Landmark :=
  [ mkLandmark 0.5 0.8 0;
    mkLandmark 0.4 0.75 (-0.01); mkLandmark 0.35 0.65 (-0.02);
    mkLandmark 0.4 0.55 (-0.03); mkLandmark 0.45 0.5 (-0.04);
    mkLandmark 0.42 0.5 0; mkLandmark 0.43 0.4 (-0.05);
    mkLandmark 0.44 0.45 (-0.08); mkLandmark 0.45 0.5 (-0.06);
    mkLandmark 0.5 0.5 0; mkLandmark 0.5 0.4 (-0.05);
    mkLandmark 0.5 0.45 (-0.08); mkLandmark 0.5 0.5 (-0.06);
    mkLandmark 0.55 0.5 0; mkLandmark 0.55 0.41 (-0.05);
    mkLandmark 0.55 0.46 (-0.08); mkLandmark 0.54 0.5 (-0.06);
    mkLandmark 0.6 0.55 0; mkLandmark 0.59 0.47 (-0.05);
    mkLandmark 0.58 0.5 (-0.08); mkLandmark 0.55 0.55 (-0.06) ]%float.

(** [landmarks] with the element at index [i] replaced (for building
    variants of a hand; [i] is always inside the array here). *)
Fixpoint with_landmark (i : nat) (p : Landmark) (landmarks : list Landmark)
  : list Landmark :=
  match landmarks, i with
  | [], _ => []
  | _ :: rest, 0 => p :: rest
  | q :: rest, S i' => q :: with_landmark i' p rest
  end.

(** The fist opened into an arc: index and pinky tips moved apart, the
    thumb tip moved away from the base of the index. *)
Definition arc : list Landmark :=
  with_landmark LANDMARK_INDICES.THUMB_TIP (mkLandmark 0.3 0.55 (-0.04))
    (with_landmark LANDMARK_INDICES.INDEX_TIP (mkLandmark 0.38 0.5 (-0.06))
       (with_landmark LANDMARK_INDICES.PINKY_TIP
          (mkLandmark 0.62 0.56 (-0.06)) fist))%float.

(** The fist with the index finger raised and the thumb folded onto the
    palm: the thumb tip stays close to the CMC joint, a little nearer to
    the camera. *)
Definition pointing_thumb_tucked : list Landmark :=
  with_landmark LANDMARK_INDICES.THUMB_TIP (mkLandmark 0.42 0.68 (-0.05))
    (with_landmark LANDMARK_INDICES.INDEX_PIP (mkLandmark 0.43 0.4 (-0.02))
       (with_landmark LANDMARK_INDICES.INDEX_DIP (mkLandmark 0.44 0.3 (-0.03))
          (with_landmark LANDMARK_INDICES.INDEX_TIP
             (mkLandmark 0.45 0.2 (-0.04)) fist)))%float.

(** ** The finger test in the words of the specification *)

(** The joints the specification names for each finger: CMC (thumb only),
    MCP, PIP and tip. *)
Definition joint_CMC : nat := LANDMARK_INDICES.THUMB_CMC.

Definition joint_MCP (finger : Finger) : nat :=
  match finger with
  | THUMB => LANDMARK_INDICES.THUMB_MCP
  | INDEX_FINGER => LANDMARK_INDICES.INDEX_MCP
  | MIDDLE_FINGER => LANDMARK_INDICES.MIDDLE_MCP
  | RING_FINGER => LANDMARK_INDICES.RING_MCP
  | PINKY_FINGER => LANDMARK_INDICES.PINKY_MCP
  end.

Definition joint_PIP (finger : Finger) : nat :=
  match finger with
  | THUMB => LANDMARK_INDICES.THUMB_PIP
  | INDEX_FINGER => LANDMARK_INDICES.INDEX_PIP
  | MIDDLE_FINGER => LANDMARK_INDICES.MIDDLE_PIP
  | RING_FINGER => LANDMARK_INDICES.RING_PIP
  | PINKY_FINGER => LANDMARK_INDICES.PINKY_PIP
  end.

Definition joint_TIP (finger : Finger) : nat :=
  match finger with
  | THUMB => LANDMARK_INDICES.THUMB_TIP
  | INDEX_FINGER => LANDMARK_INDICES.INDEX_TIP
  | MIDDLE_FINGER => LANDMARK_INDICES.MIDDLE_TIP
  | RING_FINGER => LANDMARK_INDICES.RING_TIP
  | PINKY_FINGER => LANDMARK_INDICES.PINKY_TIP
  end.

(** The specification's test on a hand of 21 landmarks.  Thumb: the
    distance from CMC to tip exceeds 1.5 times the distance from CMC to MCP
    and the tip is nearer to the camera than the MCP.  Other fingers: the
    tip's [y] is strictly less than the PIP's and the MCP's. *)
Definition isExtended_spec (hand : list Landmark) (finger : Finger) : bool :=
  let mcp := landmark hand (joint_MCP finger) in
  let pip := landmark hand (joint_PIP finger) in
  let tip := landmark hand (joint_TIP finger) in
  match finger with
  | THUMB =>
    let cmc := landmark hand joint_CMC in
    gt (dist cmc tip) (1.5 * dist cmc mcp)%float && lt (z tip) (z mcp)
  | _ => lt (y tip) (y pip) && lt (y tip) (y mcp)
  end.

(** The state in which a first commit has just happened. *)
Definition after_first_commit : State := exec initial (updates A 21).

(** * Definitions used in the further properties *)

(** [n] copies of the character of a sign. *)
Fixpoint copies (s : Symbol) (n : nat) : string :=
  match n with
  | 0 => ""
  | S n' => copies s n' ++ Symbol_str s
  end.

(** The characters of the five letters the classifier can name. *)
Definition letter_char (c : Ascii.ascii) : Prop :=
  c = "A"%char \/ c = "B"%char \/ c = "C"%char \/ c = "F"%char
  \/ c = "L"%char.

(** Whether two frames report the same thing. *)
Definition frame_eqb (f1 f2 : option Symbol) : bool :=
  match f1, f2 with
  | Some s1, Some s2 => Symbol_eqb s1 s2
  | None, None => true
  | _, _ => false
  end.

(** A sequence of frames in which no two neighbours report the same. *)
Fixpoint flickering (frames : list (option Symbol)) : bool :=
  match frames with
  | f1 :: rest =>
    match rest with
    | f2 :: _ => negb (frame_eqb f1 f2) && flickering rest
    | [] => true
    end
  | [] => true
  end.

(** The state after a call of [onResults]: the one it returns, or the
    old one when the classifier throws, since the throw comes before the
    first assignment. *)
Definition onResults_state (st : State)
    (multiHandLandmarks : option (list (list Landmark))) : State :=
  match onResults st multiHandLandmarks with
  | Normal (st', _, _) => st'
  | TypeError => st
  end.

(** The state after a sequence of calls of [onResults]. *)
Definition onResults_run (st : State)
    (calls : list (option (list (list Landmark)))) : State :=
  fold_left onResults_state calls st.

(** A landmark with its [x] and [z] put to 0. *)
Definition flattened (p : Landmark) : Landmark := mkLandmark 0 (y p) 0.

(** The landmarks [classifyLetterGesture] never looks at: the second and
    third joint of the thumb and the DIP joint of each finger. *)
Definition unread_indices : list nat :=
  [LANDMARK_INDICES.THUMB_MCP; LANDMARK_INDICES.THUMB_PIP;
   LANDMARK_INDICES.INDEX_DIP; LANDMARK_INDICES.MIDDLE_DIP;
   LANDMARK_INDICES.RING_DIP; LANDMARK_INDICES.PINKY_DIP].

(** A landmark whose three coordinates are finite Numbers (neither NaN
    nor an infinity). *)
Definition finite_landmark (p : Landmark) : bool :=
  PrimFloat.is_finite (x p) && PrimFloat.is_finite (y p)
  && PrimFloat.is_finite (z p).

(** The fist with the four fingers straightened upwards, the thumb tip
    staying beside the base of the index. *)
Definition flat_hand : list Landmark :=
  with_landmark LANDMARK_INDICES.INDEX_TIP (mkLandmark 0.45 0.2 (-0.04))
    (with_landmark LANDMARK_INDICES.MIDDLE_TIP (mkLandmark 0.5 0.18 (-0.04))
       (with_landmark LANDMARK_INDICES.RING_TIP (mkLandmark 0.55 0.2 (-0.04))
          (with_landmark LANDMARK_INDICES.PINKY_TIP
             (mkLandmark 0.6 0.28 (-0.04)) fist)))%float.

(** A hand as a broken detector could deliver it: the fist with the [y]
    of the four fingertips not a number. *)
Definition fist_nan_tips : list Landmark :=
  with_landmark LANDMARK_INDICES.INDEX_TIP (mkLandmark 0.45 nan (-0.06))
    (with_landmark LANDMARK_INDICES.MIDDLE_TIP (mkLandmark 0.5 nan (-0.06))
       (with_landmark LANDMARK_INDICES.RING_TIP (mkLandmark 0.54 nan (-0.06))
          (with_landmark LANDMARK_INDICES.PINKY_TIP
             (mkLandmark 0.55 nan (-0.06)) fist)))%float.

(** * Properties of the tracker *)

Section SymbolFacts.

Lemma Symbol_eqb_refl (s : Symbol) : Symbol_eqb s s = true.
Proof. destruct s; reflexivity. Qed.

Lemma Symbol_eqb_eq (s1 s2 : Symbol) : Symbol_eqb s1 s2 = true <-> s1 = s2.
Proof. split; [destruct s1, s2; simpl; congruence | intros ->; apply Symbol_eqb_refl]. Qed.

Lemma Symbol_eqb_neq (s1 s2 : Symbol) : s1 <> s2 -> Symbol_eqb s1 s2 = false.
Proof.
  intros Hne. destruct (Symbol_eqb s1 s2) eqn:E; [|reflexivity].
  apply Symbol_eqb_eq in E. contradiction.
Qed.

Lemma Symbol_str_length (s : Symbol) : String.length (Symbol_str s) = 1.
Proof. destruct s; reflexivity. Qed.

Lemma changed_is_not_committed (s s' : Symbol) :
  changedText s <> committedText s'.
Proof. unfold changedText, committedText. simpl. discriminate. Qed.

Lemma committedText_is_commit (s : Symbol) :
  isCommitWrite (Some (committedText s)) = true.
Proof. destruct s; reflexivity. Qed.

Lemma changedText_is_not_commit (s : Symbol) :
  isCommitWrite (Some (changedText s)) = false.
Proof. destruct s; reflexivity. Qed.

End SymbolFacts.

(** ** The three ways a frame with a hand can go *)

Section DebounceCases.

Variable st : State.
Variable s : Symbol.

(** The sign differs from the previous one: the streak restarts at 0. *)
Lemma debounce_change :
  s <> lastSign st ->
  debounce st s =
  (mkState (currentTranslation st) s 0, Some (changedText s)).
Proof.
  intros Hne. unfold debounce.
  rewrite (Symbol_eqb_neq _ _ Hne), andb_false_r. reflexivity.
Qed.

(** The sign repeats and the counter does not land on the threshold. *)
Lemma debounce_hold :
  s <> Unknown -> s = lastSign st ->
  S (stabilityCount st) <> STABILITY_THRESHOLD ->
  debounce st s =
  (mkState (currentTranslation st) s (S (stabilityCount st)), None).
Proof.
  intros Hs Hl Hc. unfold debounce.
  rewrite <- Hl, Symbol_eqb_refl, (Symbol_eqb_neq _ _ Hs). simpl negb. cbv iota beta.
  simpl andb. cbv iota.
  destruct (Nat.eqb_spec (S (stabilityCount st)) STABILITY_THRESHOLD);
    [contradiction | reflexivity].
Qed.

(** The sign repeats and the counter lands on the threshold. *)
Lemma debounce_commit :
  s <> Unknown -> s = lastSign st ->
  S (stabilityCount st) = STABILITY_THRESHOLD ->
  debounce st s =
  (mkState (currentTranslation st ++ Symbol_str s) s 1,
   Some (committedText s)).
Proof.
  intros Hs Hl Hc. unfold debounce.
  rewrite <- Hl, Symbol_eqb_refl, (Symbol_eqb_neq _ _ Hs). simpl andb. cbv iota.
  rewrite Hc, Nat.eqb_refl. reflexivity.
Qed.

(** A commit write can only come out of the threshold branch. *)
Lemma debounce_commit_inv (s' : Symbol) :
  snd (debounce st s) = Some (committedText s') ->
  s <> Unknown /\ s = lastSign st
  /\ S (stabilityCount st) = STABILITY_THRESHOLD.
Proof.
  unfold debounce.
  destruct (negb (Symbol_eqb s Unknown) && Symbol_eqb s (lastSign st)) eqn:E.
  - apply andb_true_iff in E as [E1 E2].
    apply Symbol_eqb_eq in E2.
    destruct (Nat.eqb_spec (S (stabilityCount st)) STABILITY_THRESHOLD);
      [|discriminate].
    intros _. repeat split; try assumption.
    intros ->. discriminate.
  - destruct (negb (Symbol_eqb s (lastSign st))); cbn [snd]; [|discriminate].
    intros H. exfalso. apply (changed_is_not_committed s s'). congruence.
Qed.

(** Whatever the branch, the transcript is kept or gets the sign appended,
    and it is appended exactly when the commit text is written. *)
Lemma debounce_transcript :
  (currentTranslation (fst (debounce st s)) = currentTranslation st
   /\ isCommitWrite (snd (debounce st s)) = false)
  \/ (currentTranslation (fst (debounce st s))
       = currentTranslation st ++ Symbol_str s
      /\ snd (debounce st s) = Some (committedText s)).
Proof.
  unfold debounce.
  destruct (negb (Symbol_eqb s Unknown) && Symbol_eqb s (lastSign st)).
  - destruct (S (stabilityCount st) =? STABILITY_THRESHOLD)%nat;
      [right | left]; split; reflexivity.
  - destruct (negb (Symbol_eqb s (lastSign st))); left; split; reflexivity.
Qed.

End DebounceCases.

(** ** Runs *)

Lemma exec_app (st : State) (l1 l2 : list Action) :
  exec st (l1 ++ l2)%list = exec (exec st l1) l2.
Proof. revert st; induction l1 as [|a l1 IH]; intros st; simpl; auto. Qed.

Lemma writes_app (st : State) (l1 l2 : list Action) :
  writes st (l1 ++ l2)%list = (writes st l1 ++ writes (exec st l1) l2)%list.
Proof.
  revert st; induction l1 as [|a l1 IH]; intros st; simpl; [reflexivity|].
  now rewrite IH.
Qed.

Lemma updates_S (s : Symbol) (n : nat) :
  updates s (S n) = Frame (Some s) :: updates s n.
Proof. reflexivity. Qed.

Lemma updates_snoc (s : Symbol) (n : nat) :
  updates s (S n) = (updates s n ++ [Frame (Some s)])%list.
Proof.
  unfold updates. induction n as [|n IH]; [reflexivity|].
  change (repeat (Frame (Some s)) (S (S n)))
    with (Frame (Some s) :: repeat (Frame (Some s)) (S n)).
  rewrite IH at 1. reflexivity.
Qed.

(** While the counter stays under the threshold, repeating the sign only
    counts: nothing is written and the transcript stays. *)
Lemma hold_run (s : Symbol) (k : nat) :
  s <> Unknown ->
  forall st, s = lastSign st -> stabilityCount st + k < STABILITY_THRESHOLD ->
  exec st (updates s k)
  = mkState (currentTranslation st) s (stabilityCount st + k)
  /\ writes st (updates s k) = repeat None k.
Proof.
  intros Hs. induction k as [|k IH]; intros st Hl Hc.
  - simpl. rewrite Nat.add_0_r, Hl. destruct st; auto.
  - rewrite updates_S. cbn [exec writes act].
    rewrite (debounce_hold st s Hs Hl) by lia. cbn [fst snd].
    destruct (IH (mkState (currentTranslation st) s (S (stabilityCount st))))
      as [He Hw]; [reflexivity | simpl; lia |].
    rewrite He, Hw. simpl. split; [f_equal; lia | reflexivity].
Qed.

(** ** Invariants of the state *)

Lemma streak_has_sign_act (st : State) (a : Action) :
  streak_has_sign st -> streak_has_sign (fst (act st a)).
Proof.
  unfold streak_has_sign. intros Hinv.
  destruct a as [[s|]|]; cbn [act]; try (simpl; lia).
  unfold debounce.
  destruct (negb (Symbol_eqb s Unknown) && Symbol_eqb s (lastSign st)) eqn:E.
  - apply andb_true_iff in E as [E1 E2]. apply Symbol_eqb_eq in E2.
    assert (lastSign st <> Unknown).
    { intros Hu. rewrite E2, Hu in E1. discriminate E1. }
    destruct (S (stabilityCount st) =? STABILITY_THRESHOLD)%nat; simpl; auto.
  - destruct (negb (Symbol_eqb s (lastSign st))); simpl; [lia | exact Hinv].
Qed.

Lemma streak_has_sign_exec (acts : list Action) :
  forall st, streak_has_sign st -> streak_has_sign (exec st acts).
Proof.
  induction acts as [|a acts IH]; intros st Hinv; simpl; [assumption|].
  apply IH, streak_has_sign_act, Hinv.
Qed.

Lemma streak_has_sign_initial : streak_has_sign initial.
Proof. unfold streak_has_sign. simpl. lia. Qed.

(** The counter never reaches the threshold between two calls, so in
    particular it stays a small whole number. *)
Lemma count_below_threshold_act (st : State) (a : Action) :
  stabilityCount st < STABILITY_THRESHOLD ->
  stabilityCount (fst (act st a)) < STABILITY_THRESHOLD.
Proof.
  intros Hlt. unfold STABILITY_THRESHOLD in *.
  destruct a as [[s|]|]; cbn [act]; try (simpl; lia).
  unfold debounce.
  destruct (negb (Symbol_eqb s Unknown) && Symbol_eqb s (lastSign st)).
  - unfold STABILITY_THRESHOLD.
    destruct (Nat.eqb_spec (S (stabilityCount st)) 20); simpl; lia.
  - destruct (negb (Symbol_eqb s (lastSign st))); simpl; lia.
Qed.

Lemma count_below_threshold (acts : list Action) :
  stabilityCount (exec initial acts) < STABILITY_THRESHOLD.
Proof.
  assert (G : forall st, stabilityCount st < STABILITY_THRESHOLD ->
              stabilityCount (exec st acts) < STABILITY_THRESHOLD).
  { induction acts as [|a acts IH]; intros st H; simpl; [assumption|].
    apply IH, count_below_threshold_act, H. }
  apply G. unfold STABILITY_THRESHOLD. simpl. lia.
Qed.

Lemma string_app_nil_r (t : string) : t ++ "" = t.
Proof. induction t; simpl; congruence. Qed.

Lemma string_app_assoc (t u v : string) : (t ++ u) ++ v = t ++ (u ++ v).
Proof. induction t; simpl; congruence. Qed.

(** A run made of frames only (no click on the clear button) extends the
    transcript: what was typed stays in front. *)
Lemma frames_extend_transcript (frames : list (option Symbol)) :
  forall st, exists typed,
    currentTranslation (exec st (map Frame frames))
    = currentTranslation st ++ typed.
Proof.
  induction frames as [|f frames IH]; intros st.
  - exists "". simpl. now rewrite string_app_nil_r.
  - cbn [map exec].
    destruct (IH (fst (act st (Frame f)))) as [typed Ht]. rewrite Ht.
    destruct f as [s|]; cbn [act].
    + destruct (debounce_transcript st s) as [[-> _]|[-> _]].
      * now exists typed.
      * exists (Symbol_str s ++ typed). apply string_app_assoc.
    + now exists typed.
Qed.

(** * Properties of the classifier *)

Section ClassifierFacts.

Variable landmarks : list Landmark.

Lemma idx_landmark (i : nat) :
  i < List.length landmarks -> idx landmarks i = Some (landmark landmarks i).
Proof. intros Hi. unfold idx, landmark. now apply nth_error_nth'. Qed.

Lemma idx_undefined (i : nat) :
  List.length landmarks <= i -> idx landmarks i = None.
Proof. intros Hi. unfold idx. now apply nth_error_None. Qed.

Lemma distance_defined (p q : Landmark) :
  distance (Some p) (Some q) = Normal (dist p q).
Proof. reflexivity. Qed.

(** The thumb branch as the code computes it: both "mcp" and the first
    argument of the two distances are [landmarks[THUMB[0]]], the CMC
    landmark. *)
Lemma isExtended_thumb :
  LANDMARK_INDICES.THUMB_TIP < List.length landmarks ->
  let cmc := landmark landmarks LANDMARK_INDICES.THUMB_CMC in
  let tip := landmark landmarks LANDMARK_INDICES.THUMB_TIP in
  isExtended landmarks THUMB
  = Normal (gt (dist cmc tip) (dist cmc cmc * 1.5)%float
            && lt (z tip) (z cmc)).
Proof.
  intros Hlen cmc tip. unfold isExtended.
  cbn [is_THUMB fidx finger_indices nth].
  rewrite !idx_landmark
    by (eapply Nat.le_lt_trans; [|exact Hlen]; apply Nat.leb_le; reflexivity).
  reflexivity.
Qed.

(** The branch of the other four fingers. *)
Lemma isExtended_finger (finger : Finger) :
  finger <> THUMB ->
  fidx finger 3 < List.length landmarks ->
  let mcp := landmark landmarks (fidx finger 0) in
  let pip := landmark landmarks (fidx finger 1) in
  let tip := landmark landmarks (fidx finger 3) in
  isExtended landmarks finger
  = Normal (gt (y pip) (y tip) && gt (y mcp) (y tip)).
Proof.
  intros Hf Hlen mcp pip tip. unfold isExtended.
  assert (H0 : fidx finger 0 <= fidx finger 3)
    by (destruct finger; apply Nat.leb_le; reflexivity).
  assert (H1 : fidx finger 1 <= fidx finger 3)
    by (destruct finger; apply Nat.leb_le; reflexivity).
  destruct finger; try contradiction; cbn [is_THUMB];
    rewrite !idx_landmark by lia; reflexivity.
Qed.

(** With fewer than 21 landmarks the pinky tip is [undefined] and reading
    its [y] throws. *)
Lemma isExtended_pinky_throws :
  List.length landmarks <= LANDMARK_INDICES.PINKY_TIP ->
  isExtended landmarks PINKY_FINGER = TypeError.
Proof.
  intros Hlen. unfold isExtended.
  cbn [is_THUMB fidx finger_indices nth].
  rewrite (idx_undefined LANDMARK_INDICES.PINKY_TIP Hlen).
  destruct (idx landmarks LANDMARK_INDICES.PINKY_PIP); reflexivity.
Qed.

Hypothesis enough : 21 <= List.length landmarks.

Lemma idx_hand (i : nat) :
  (i <? 21)%nat = true -> idx landmarks i = Some (landmark landmarks i).
Proof. intros Hi. apply idx_landmark. apply Nat.ltb_lt in Hi. lia. Qed.

Lemma isExtended_total (finger : Finger) :
  exists b, isExtended landmarks finger = Normal b.
Proof.
  destruct finger.
  1: rewrite isExtended_thumb; [eauto|].
  2-5: rewrite isExtended_finger; [eauto | discriminate |].
  all: eapply Nat.lt_le_trans; [|exact enough]; apply Nat.ltb_lt; reflexivity.
Qed.

Lemma distance_hand (i j : nat) :
  (i <? 21)%nat = true -> (j <? 21)%nat = true ->
  distance (idx landmarks i) (idx landmarks j)
  = Normal (dist (landmark landmarks i) (landmark landmarks j)).
Proof. intros Hi Hj. now rewrite !idx_hand. Qed.

End ClassifierFacts.

(** ** What the classifier returns on arrays of every length *)

Section ClassifierTotality.

Variable landmarks : list Landmark.

(** On an array with all 21 landmarks nothing is [undefined], every test
    is a comparison of Numbers, and the decision list ends in a sign. *)
Lemma classify_defined :
  21 <= List.length landmarks ->
  exists s, classifyLetterGesture (Some landmarks) = Normal s.
Proof.
  intros enough. unfold classifyLetterGesture.
  destruct (Nat.eqb_spec (List.length landmarks) 0) as [E|_]; [lia|].
  destruct (isExtended_total landmarks enough THUMB) as [t ->].
  destruct (isExtended_total landmarks enough INDEX_FINGER) as [i ->].
  destruct (isExtended_total landmarks enough MIDDLE_FINGER) as [m ->].
  destruct (isExtended_total landmarks enough RING_FINGER) as [r ->].
  destruct (isExtended_total landmarks enough PINKY_FINGER) as [p ->].
  rewrite !(distance_hand landmarks enough) by reflexivity.
  cbn [bind].
  repeat match goal with
         | |- context [if ?b then _ else _] => destruct b; cbn [bind]
         end; eauto.
Qed.

(** A non-empty array that stops before the pinky tip passes the guard and
    then throws while the finger states are computed. *)
Lemma classify_short_throws :
  0 < List.length landmarks -> List.length landmarks < 21 ->
  classifyLetterGesture (Some landmarks) = TypeError.
Proof.
  intros Hpos Hshort. unfold classifyLetterGesture.
  destruct (Nat.eqb_spec (List.length landmarks) 0) as [E|_]; [lia|].
  rewrite (isExtended_pinky_throws landmarks)
    by (unfold LANDMARK_INDICES.PINKY_TIP; lia).
  destruct (isExtended landmarks THUMB),
           (isExtended landmarks INDEX_FINGER),
           (isExtended landmarks MIDDLE_FINGER),
           (isExtended landmarks RING_FINGER); reflexivity.
Qed.

(** When the four fingers are curled, rules L, F and B are out and the
    outcome is decided by the two comparisons of rule C. *)
Lemma classify_all_curled :
  21 <= List.length landmarks ->
  isExtended landmarks INDEX_FINGER = Normal false ->
  isExtended landmarks MIDDLE_FINGER = Normal false ->
  isExtended landmarks RING_FINGER = Normal false ->
  isExtended landmarks PINKY_FINGER = Normal false ->
  let handSize := dist (landmark landmarks LANDMARK_INDICES.WRIST)
                       (landmark landmarks LANDMARK_INDICES.PINKY_MCP) in
  let tipSpread := dist (landmark landmarks LANDMARK_INDICES.INDEX_TIP)
                        (landmark landmarks LANDMARK_INDICES.PINKY_TIP) in
  let thumbTuck := dist (landmark landmarks LANDMARK_INDICES.THUMB_TIP)
                        (landmark landmarks LANDMARK_INDICES.INDEX_MCP) in
  classifyLetterGesture (Some landmarks)
  = Normal (if gt tipSpread (handSize * 0.5)%float
               && gt thumbTuck (handSize * 0.15)%float
            then C else A).
Proof.
  intros enough Hi Hm Hr Hp handSize tipSpread thumbTuck.
  unfold classifyLetterGesture.
  destruct (Nat.eqb_spec (List.length landmarks) 0) as [E|_]; [lia|].
  destruct (isExtended_total landmarks enough THUMB) as [t ->].
  rewrite Hi, Hm, Hr, Hp.
  rewrite !(distance_hand landmarks enough) by reflexivity.
  cbn [bind negb andb]. rewrite !andb_false_r. cbn [bind].
  fold handSize tipSpread thumbTuck.
  destruct (gt tipSpread (handSize * 0.5)%float); cbn [bind andb];
    [destruct (gt thumbTuck (handSize * 0.15)%float)|]; reflexivity.
Qed.

End ClassifierTotality.

(** On the four fingers the code and the specification agree. *)
Lemma isExtended_finger_spec (hand : list Landmark) (finger : Finger) :
  21 <= List.length hand -> finger <> THUMB ->
  isExtended hand finger = Normal (isExtended_spec hand finger).
Proof.
  intros enough Hf. rewrite isExtended_finger; [| assumption |].
  - destruct finger; try contradiction; reflexivity.
  - eapply Nat.lt_le_trans; [|exact enough].
    destruct finger; apply Nat.ltb_lt; reflexivity.
Qed.

(** The thumb test of the code never reads the MCP landmark: moving it
    does not change the answer. *)
Lemma isExtended_thumb_ignores_mcp (hand : list Landmark) (p : Landmark) :
  21 <= List.length hand ->
  isExtended (with_landmark LANDMARK_INDICES.THUMB_MCP p hand) THUMB
  = isExtended hand THUMB.
Proof.
  intros enough.
  do 5 (destruct hand as [|? hand]; [simpl in enough; lia|]).
  reflexivity.
Qed.

(** ** [onResults] reduces to the actions *)

Lemma onResults_no_hand (st : State) :
  onResults st None = Normal (fst (noHand st), Unknown, snd (noHand st))
  /\ onResults st (Some []) = Normal (fst (noHand st), Unknown, snd (noHand st)).
Proof. split; reflexivity. Qed.

Lemma onResults_one_hand (st : State) (landmarks : list Landmark) (s : Symbol) :
  classifyLetterGesture (Some landmarks) = Normal s ->
  onResults st (Some [landmarks])
  = Normal (fst (debounce st s), s, snd (debounce st s)).
Proof.
  intros Hc. unfold onResults. rewrite Hc. cbn [bind].
  destruct (debounce st s). reflexivity.
Qed.

(** Every call of [onResults] that returns moves the state by one action. *)
Lemma onResults_acts (st st' : State) (results : option (list (list Landmark)))
    (s : Symbol) (w : StatusWrite) :
  onResults st results = Normal (st', s, w) ->
  exists hand, st' = fst (act st (Frame hand)).
Proof.
  unfold onResults. destruct results as [[|landmarks others]|].
  - intros [= <- _ _]. now exists None.
  - destruct (classifyLetterGesture (Some landmarks)) as [c|]; [|discriminate].
    cbn [bind]. destruct (debounce st c) as [st1 w1] eqn:E.
    intros [= <- _ _]. exists (Some c). cbn [act]. now rewrite E.
  - intros [= <- _ _]. now exists None.
Qed.

Lemma string_length_app (t u : string) :
  String.length (t ++ u) = String.length t + String.length u.
Proof. induction t; simpl; congruence. Qed.

(** * The claims *)

(** C1 (amended): from the initial state, feeding the same non-Unknown sign
    produces exactly one commit status, and it comes on the 21st call, not
    the 20th: the first call only records the change (counter 0, "changed"
    status), calls 2 to 20 write nothing and leave the transcript empty,
    and call 21 writes the commit status for that sign and extends the
    transcript by that one character. *)
Theorem first_commit_on_21st_call (s : Symbol) :
  s <> Unknown ->
  writes initial (updates s 21)
  = (Some (changedText s) :: repeat None 19
     ++ [Some (committedText s)])%list
  /\ filter isCommitWrite (writes initial (updates s 21))
     = [Some (committedText s)]
  /\ (forall k, k <= 20 ->
        currentTranslation (exec initial (updates s k)) = ""
        /\ filter isCommitWrite (writes initial (updates s k)) = [])
  /\ exec initial (updates s 21) = mkState (Symbol_str s) s 1
  /\ String.length (currentTranslation (exec initial (updates s 21)))
     = String.length (currentTranslation initial) + 1.
Proof.
  intros Hs.
  assert (Hchange : debounce initial s
                    = (mkState "" s 0, Some (changedText s)))
    by (apply debounce_change; simpl; congruence).
  assert (Hhold : forall k, k <= 19 ->
            exec (mkState "" s 0) (updates s k) = mkState "" s k
            /\ writes (mkState "" s 0) (updates s k) = repeat None k).
  { intros k Hk.
    apply (hold_run s k Hs (mkState "" s 0)); [reflexivity|].
    unfold STABILITY_THRESHOLD; simpl; lia. }
  assert (Hcommit : debounce (mkState "" s 19) s
                    = (mkState (Symbol_str s) s 1, Some (committedText s)))
    by (apply (debounce_commit (mkState "" s 19) s Hs); reflexivity).
  assert (Hnone : forall k, filter isCommitWrite (repeat None k) = [])
    by (induction k; simpl; auto).
  assert (Hw : writes initial (updates s 21)
               = (Some (changedText s) :: repeat None 19
                  ++ [Some (committedText s)])%list).
  { rewrite updates_S. cbn [writes act]. rewrite Hchange. cbn [fst snd].
    rewrite updates_snoc, writes_app.
    destruct (Hhold 19 (le_n _)) as [-> ->].
    cbn [writes act]. now rewrite Hcommit. }
  assert (He : exec initial (updates s 21) = mkState (Symbol_str s) s 1).
  { rewrite updates_S. cbn [exec act]. rewrite Hchange. cbn [fst].
    rewrite updates_snoc, exec_app.
    destruct (Hhold 19 (le_n _)) as [-> _].
    cbn [exec act]. now rewrite Hcommit. }
  repeat split.
  - exact Hw.
  - rewrite Hw. cbn [filter]. rewrite changedText_is_not_commit.
    rewrite filter_app, Hnone. cbn [filter app].
    now rewrite committedText_is_commit.
  - destruct k as [|k]; [reflexivity|].
    rewrite updates_S. cbn [exec act]. rewrite Hchange. cbn [fst].
    destruct (Hhold k) as [-> _]; [lia | reflexivity].
  - destruct k as [|k]; [reflexivity|].
    rewrite updates_S. cbn [writes act]. rewrite Hchange. cbn [fst snd].
    destruct (Hhold k) as [_ ->]; [lia|].
    cbn [filter]. now rewrite changedText_is_not_commit, Hnone.
  - exact He.
  - rewrite He. simpl. apply Symbol_str_length.
Qed.

Lemma first_commit_on_21st_call_witness :
  A <> Unknown
  /\ writes initial (updates A 21)
     = (Some (changedText A) :: repeat None 19
        ++ [Some (committedText A)])%list.
Proof.
  split; [discriminate|].
  apply (first_commit_on_21st_call A). discriminate.
Defined.

(** C1 as stated fails: after 20 calls with the sign A the 20th call has
    written nothing, no commit status was written at all and the transcript
    is still empty. *)
Lemma twenty_calls_do_not_commit :
  nth_error (writes initial (updates A 20)) 19 = Some None
  /\ filter isCommitWrite (writes initial (updates A 20)) = []
  /\ currentTranslation (exec initial (updates A 20)) = ""
  /\ stabilityCount (exec initial (updates A 20)) = 19.
Proof. repeat split; reflexivity. Qed.

(** C2 (amended): a commit leaves the counter at 1, so while the same sign
    keeps coming the next 18 calls write nothing and leave the transcript
    alone, and the 19th call commits the sign again: a sustained hold
    repeats the commit every 19 calls. *)
Theorem sustained_hold_recommits (st : State) (s : Symbol) :
  snd (debounce st s) = Some (committedText s) ->
  (forall k, k <= 18 ->
     writes (fst (debounce st s)) (updates s k) = repeat None k
     /\ currentTranslation (exec (fst (debounce st s)) (updates s k))
        = currentTranslation (fst (debounce st s)))
  /\ writes (fst (debounce st s)) (updates s 19)
     = (repeat None 18 ++ [Some (committedText s)])%list
  /\ currentTranslation (exec (fst (debounce st s)) (updates s 19))
     = currentTranslation (fst (debounce st s)) ++ Symbol_str s
  /\ stabilityCount (exec (fst (debounce st s)) (updates s 19)) = 1.
Proof.
  intros Hw. destruct (debounce_commit_inv st s s Hw) as (Hs & Hl & Hc).
  rewrite (debounce_commit st s Hs Hl Hc). cbn [fst].
  set (t := currentTranslation st ++ Symbol_str s).
  assert (Hhold : forall k, k <= 18 ->
            exec (mkState t s 1) (updates s k) = mkState t s (1 + k)
            /\ writes (mkState t s 1) (updates s k) = repeat None k).
  { intros k Hk. apply (hold_run s k Hs (mkState t s 1)); [reflexivity|].
    unfold STABILITY_THRESHOLD; simpl; lia. }
  assert (Hcommit : debounce (mkState t s 19) s
                    = (mkState (t ++ Symbol_str s) s 1,
                       Some (committedText s)))
    by (apply (debounce_commit (mkState t s 19) s Hs); reflexivity).
  split.
  - intros k Hk. destruct (Hhold k Hk) as [-> ->]. split; reflexivity.
  - rewrite updates_snoc, writes_app, exec_app.
    destruct (Hhold 18 (le_n _)) as [-> ->].
    change (1 + 18) with 19. cbn [writes exec act].
    rewrite Hcommit. repeat split.
Qed.

Lemma sustained_hold_recommits_witness :
  snd (debounce (mkState "" A 19) A) = Some (committedText A)
  /\ currentTranslation
       (exec (fst (debounce (mkState "" A 19) A)) (updates A 19))
     = "AA".
Proof.
  split; [reflexivity|].
  apply (sustained_hold_recommits (mkState "" A 19) A). reflexivity.
Defined.

(** C2 as stated fails: holding the sign A for 40 frames from the initial
    state commits twice, on calls 21 and 40, with no change of sign in
    between. *)
Lemma forty_calls_commit_twice :
  filter isCommitWrite (writes initial (updates A 40))
  = [Some (committedText A); Some (committedText A)]
  /\ nth_error (writes initial (updates A 40)) 20 = Some (Some (committedText A))
  /\ nth_error (writes initial (updates A 40)) 39 = Some (Some (committedText A))
  /\ currentTranslation (exec initial (updates A 40)) = "AA".
Proof. repeat split; reflexivity. Qed.

(** C3 (amended): the classifier returns Unknown for an absent hand and for
    an empty array, and on every array that holds the 21 landmarks (or
    more) it returns a sign without throwing. *)
Theorem classify_total_on_hands (landmarks : list Landmark) :
  21 <= List.length landmarks ->
  classifyLetterGesture None = Normal Unknown
  /\ classifyLetterGesture (Some []) = Normal Unknown
  /\ exists s, classifyLetterGesture (Some landmarks) = Normal s.
Proof.
  intros enough. repeat split; try reflexivity.
  now apply classify_defined.
Qed.

Lemma classify_total_on_hands_witness :
  21 <= List.length fist
  /\ exists s, classifyLetterGesture (Some fist) = Normal s.
Proof.
  split; [apply Nat.leb_le; reflexivity|].
  apply (classify_total_on_hands fist). apply Nat.leb_le; reflexivity.
Defined.

(** C3 as stated fails: an array with a single landmark is not answered
    with Unknown, the call throws a TypeError; and an array of 22 landmarks
    is classified like a hand. *)
Lemma classify_wrong_length_not_unknown :
  classifyLetterGesture (Some [mkLandmark 0.5 0.5 0]%float) = TypeError
  /\ classifyLetterGesture (Some (fist ++ [origin])%list) = Normal A.
Proof. split; reflexivity. Qed.

(** C4: on a hand of 21 landmarks whose four non-thumb fingers are all
    curled, the classifier returns C exactly when the tip spread exceeds
    half the hand size and the thumb tip is farther from the index MCP than
    0.15 of the hand size, and A in every other case. *)
Theorem curled_hand_is_C_or_A (landmarks : list Landmark) :
  List.length landmarks = 21 ->
  isExtended landmarks INDEX_FINGER = Normal false ->
  isExtended landmarks MIDDLE_FINGER = Normal false ->
  isExtended landmarks RING_FINGER = Normal false ->
  isExtended landmarks PINKY_FINGER = Normal false ->
  let handSize := dist (landmark landmarks LANDMARK_INDICES.WRIST)
                       (landmark landmarks LANDMARK_INDICES.PINKY_MCP) in
  let tipSpread := dist (landmark landmarks LANDMARK_INDICES.INDEX_TIP)
                        (landmark landmarks LANDMARK_INDICES.PINKY_TIP) in
  let thumbTuck := dist (landmark landmarks LANDMARK_INDICES.THUMB_TIP)
                        (landmark landmarks LANDMARK_INDICES.INDEX_MCP) in
  (classifyLetterGesture (Some landmarks) = Normal C
   <-> gt tipSpread (handSize * 0.5)%float = true
       /\ gt thumbTuck (handSize * 0.15)%float = true)
  /\ (classifyLetterGesture (Some landmarks) = Normal A
      <-> ~ (gt tipSpread (handSize * 0.5)%float = true
             /\ gt thumbTuck (handSize * 0.15)%float = true)).
Proof.
  intros Hlen Hi Hm Hr Hp handSize tipSpread thumbTuck.
  rewrite (classify_all_curled landmarks) by (assumption || lia).
  fold handSize tipSpread thumbTuck.
  destruct (gt tipSpread (handSize * 0.5)%float),
           (gt thumbTuck (handSize * 0.15)%float); cbn [andb];
    intuition congruence.
Qed.

Lemma curled_hand_is_C_or_A_witness :
  classifyLetterGesture (Some arc) = Normal C
  /\ classifyLetterGesture (Some fist) = Normal A.
Proof.
  split.
  - apply (curled_hand_is_C_or_A arc); try reflexivity. split; reflexivity.
  - apply (curled_hand_is_C_or_A fist); try reflexivity.
    intros [H _]. discriminate H.
Defined.

(** C5: the code's thumb test is not the one the claim (and the comment in
    the code) describes.  On the pointing hand with the thumb folded, the
    tip is only 0.74 times as far from the CMC as the MCP is, so the
    described test says "not extended"; the code compares the CMC-to-tip
    distance with 1.5 times the distance from the CMC to itself, which is
    0, and the tip's depth with the CMC's, answers "extended" and the hand
    is classified L. *)
Theorem thumb_test_measures_cmc_to_itself :
  isExtended pointing_thumb_tucked THUMB = Normal true
  /\ isExtended_spec pointing_thumb_tucked THUMB = false
  /\ dist (landmark pointing_thumb_tucked LANDMARK_INDICES.THUMB_CMC)
          (landmark pointing_thumb_tucked LANDMARK_INDICES.THUMB_CMC)
     = 0%float
  /\ fidx THUMB 0 = LANDMARK_INDICES.THUMB_CMC
  /\ classifyLetterGesture (Some pointing_thumb_tucked) = Normal L.
Proof. repeat split; reflexivity. Qed.

(** C6: whatever the state (any transcript, any sign held, any streak
    length), as long as it has the invariant of the tracker that a counter
    above 0 comes with a [lastSign] other than Unknown, a frame classified
    as Unknown and a frame without a hand both leave [lastSign] at
    Unknown and the counter at 0, keep the transcript and write no commit
    status.  Every state of a run from the initial state has the
    invariant, so this holds at any point of any run. *)
Theorem unknown_resets_streak (st : State) (acts : list Action) :
  streak_has_sign st ->
  fst (debounce st Unknown) = mkState (currentTranslation st) Unknown 0
  /\ isCommitWrite (snd (debounce st Unknown)) = false
  /\ fst (noHand st) = mkState (currentTranslation st) Unknown 0
  /\ isCommitWrite (snd (noHand st)) = false
  /\ fst (debounce (exec initial acts) Unknown)
     = mkState (currentTranslation (exec initial acts)) Unknown 0
  /\ isCommitWrite (snd (debounce (exec initial acts) Unknown)) = false.
Proof.
  assert (Hreset : forall st',
             streak_has_sign st' ->
             fst (debounce st' Unknown)
             = mkState (currentTranslation st') Unknown 0
             /\ isCommitWrite (snd (debounce st' Unknown)) = false).
  { intros [t l c] Hinv. unfold streak_has_sign in Hinv.
    cbn [lastSign stabilityCount currentTranslation] in *.
    assert (Hcase : l = Unknown /\ c = 0 \/ Unknown <> l).
    { destruct l; try (right; discriminate). left. split; [reflexivity|].
      destruct c; [reflexivity|]. exfalso. apply Hinv; [lia | reflexivity]. }
    destruct Hcase as [[-> ->]|Hne].
    - split; reflexivity.
    - rewrite (debounce_change (mkState t l c) Unknown Hne).
      split; reflexivity. }
  intros Hinv.
  destruct (Hreset st Hinv) as [H1 H2].
  destruct (Hreset (exec initial acts)
              (streak_has_sign_exec acts initial streak_has_sign_initial))
    as [H3 H4].
  repeat split; assumption || reflexivity.
Qed.

Lemma unknown_resets_streak_witness :
  streak_has_sign (mkState "AB" C 17)
  /\ fst (debounce (mkState "AB" C 17) Unknown) = mkState "AB" Unknown 0
  /\ fst (noHand (mkState "AB" C 17)) = mkState "AB" Unknown 0.
Proof.
  assert (H : streak_has_sign (mkState "AB" C 17)) by (intros _; discriminate).
  split; [exact H|].
  destruct (unknown_resets_streak (mkState "AB" C 17) [] H)
    as (H1 & _ & H3 & _).
  split; [exact H1 | exact H3].
Defined.

(** C7: a frame either keeps the transcript (and then writes no commit
    status) or appends exactly one character, the sign it commits; a frame
    without a hand keeps it; over any run of frames the transcript at the
    start stays as a prefix and the length never goes down; the clear
    operation empties it. *)
Theorem transcript_grows_by_commits_only (st : State) (s : Symbol)
    (frames : list (option Symbol)) :
  ((currentTranslation (fst (debounce st s)) = currentTranslation st
    /\ isCommitWrite (snd (debounce st s)) = false)
   \/ (currentTranslation (fst (debounce st s))
       = currentTranslation st ++ Symbol_str s
       /\ String.length (Symbol_str s) = 1
       /\ snd (debounce st s) = Some (committedText s)))
  /\ currentTranslation (fst (noHand st)) = currentTranslation st
  /\ (exists typed,
        currentTranslation (exec st (map Frame frames))
        = currentTranslation st ++ typed)
  /\ String.length (currentTranslation st)
     <= String.length (currentTranslation (exec st (map Frame frames)))
  /\ currentTranslation (fst (clearTranslation st)) = "".
Proof.
  split; [|split; [reflexivity | split; [|split; [|reflexivity]]]].
  - destruct (debounce_transcript st s) as [H|[H1 H2]]; [now left|].
    right. repeat split; try assumption. apply Symbol_str_length.
  - apply frames_extend_transcript.
  - destruct (frames_extend_transcript frames st) as [typed ->].
    rewrite string_length_app. lia.
Qed.

(** C8: whatever the state, the clear operation leaves the transcript
    empty, [lastSign] at Unknown and the counter at 0, which is the initial
    state; clearing twice gives the same as clearing once. *)
Theorem clearTranslation_resets (st : State) :
  fst (clearTranslation st) = mkState "" Unknown 0
  /\ fst (clearTranslation st) = initial
  /\ clearTranslation (fst (clearTranslation st)) = clearTranslation st
  /\ exec st [Clear; Clear] = exec st [Clear].
Proof. repeat split; reflexivity. Qed.

(** C9 (amended): when the sign is not Unknown, equals [lastSign] and the
    incremented counter is not the threshold, the call writes no status at
    all: the status line keeps the text it had, the counter is incremented
    and nothing is committed. *)
Theorem hold_writes_no_status (st : State) (s : Symbol) (before : string) :
  s <> Unknown -> s = lastSign st ->
  S (stabilityCount st) <> STABILITY_THRESHOLD ->
  snd (debounce st s) = None
  /\ shown before [snd (debounce st s)] = before
  /\ fst (debounce st s)
     = mkState (currentTranslation st) s (S (stabilityCount st)).
Proof.
  intros Hs Hl Hc. rewrite (debounce_hold st s Hs Hl Hc).
  repeat split; reflexivity.
Qed.

Lemma hold_writes_no_status_witness :
  shown (changedText A) [snd (debounce (mkState "" A 3) A)] = changedText A
  /\ fst (debounce (mkState "" A 3) A) = mkState "" A 4.
Proof.
  apply (hold_writes_no_status (mkState "" A 3) A (changedText A));
    [discriminate | reflexivity | discriminate].
Defined.

(** C9 as stated fails: on the call that follows the first commit the sign
    A is not Unknown, equals [lastSign], and the counter goes from 1 to 2;
    the call writes no status and the status line still reads
    "Sign Committed: 'A'", not a holding status. *)
Lemma hold_after_commit_shows_committed :
  lastSign after_first_commit = A
  /\ stabilityCount after_first_commit = 1
  /\ snd (debounce after_first_commit A) = None
  /\ shown "Starting Camera..." (writes initial (updates A 22))
     = "Sign Committed: 'A'"
  /\ currentTranslation (fst (debounce after_first_commit A))
     = currentTranslation after_first_commit.
Proof. repeat split; reflexivity. Qed.

(** C10: the invariant "a counter above 0 comes with a [lastSign] other
    than Unknown" ([streak_has_sign]) holds in the initial state, is kept
    by every sequence of actions (frames with any sign, frames without a
    hand, clears) from any state that has it, and so holds at every point
    of every run from the initial state. *)
Theorem streak_implies_sign (st : State) (acts : list Action) :
  streak_has_sign st ->
  streak_has_sign (exec st acts)
  /\ streak_has_sign initial
  /\ (0 < stabilityCount (exec initial acts) ->
      lastSign (exec initial acts) <> Unknown).
Proof.
  intros Hinv. split; [|split].
  - exact (streak_has_sign_exec acts st Hinv).
  - exact streak_has_sign_initial.
  - exact (streak_has_sign_exec acts initial streak_has_sign_initial).
Qed.

Lemma streak_implies_sign_witness :
  streak_has_sign (mkState "" A 3)
  /\ streak_has_sign (exec (mkState "" A 3) [Frame (Some B); Frame None])
  /\ lastSign (exec initial (updates A 3)) <> Unknown.
Proof.
  assert (H : streak_has_sign (mkState "" A 3)) by (intros _; discriminate).
  split; [exact H|]. split.
  - apply (streak_implies_sign (mkState "" A 3)
             [Frame (Some B); Frame None] H).
  - apply (streak_implies_sign (mkState "" A 3) (updates A 3) H).
    apply Nat.ltb_lt; reflexivity.
Defined.

(** * Further properties of the tracker *)

Lemma list_ascii_app (t u : string) :
  list_ascii_of_string (t ++ u)
  = (list_ascii_of_string t ++ list_ascii_of_string u)%list.
Proof. induction t; simpl; congruence. Qed.

(** A sign seen for the first time (or again after something else): the
    first frame records the change, the following ones only count. *)
Lemma fresh_sign_run (st : State) (s : Symbol) (k : nat) :
  s <> Unknown -> s <> lastSign st -> k <= 19 ->
  exec st (updates s (S k)) = mkState (currentTranslation st) s k
  /\ writes st (updates s (S k))
     = Some (changedText s) :: repeat None k.
Proof.
  intros Hs Hl Hk. rewrite updates_S. cbn [exec writes act].
  rewrite (debounce_change st s Hl). cbn [fst snd].
  destruct (hold_run s k Hs (mkState (currentTranslation st) s 0))
    as [-> ->]; [reflexivity | unfold STABILITY_THRESHOLD; simpl; lia |].
  split; reflexivity.
Qed.

(** ... and the 21st frame commits it. *)
Lemma fresh_sign_commit (st : State) (s : Symbol) :
  s <> Unknown -> s <> lastSign st ->
  exec st (updates s 21) = mkState (currentTranslation st ++ Symbol_str s) s 1
  /\ writes st (updates s 21)
     = (Some (changedText s) :: repeat None 19
        ++ [Some (committedText s)])%list.
Proof.
  intros Hs Hl. rewrite updates_snoc, exec_app, writes_app.
  destruct (fresh_sign_run st s 19 Hs Hl (le_n _)) as [-> ->].
  cbn [exec writes act].
  rewrite (debounce_commit (mkState (currentTranslation st) s 19) s Hs)
    by reflexivity.
  split; reflexivity.
Qed.

(** From the state a commit leaves, 19 more frames commit again. *)
Lemma recommit_run (t : string) (s : Symbol) :
  s <> Unknown ->
  exec (mkState t s 1) (updates s 19) = mkState (t ++ Symbol_str s) s 1.
Proof.
  intros Hs. rewrite updates_snoc, exec_app.
  destruct (hold_run s 18 Hs (mkState t s 1)) as [-> _];
    [reflexivity | unfold STABILITY_THRESHOLD; simpl; lia |].
  cbn [exec act currentTranslation stabilityCount]. change (1 + 18) with 19.
  now rewrite (debounce_commit (mkState t s 19) s Hs) by reflexivity.
Qed.

Lemma no_commit_in_holds (k : nat) :
  filter isCommitWrite (repeat None k) = [].
Proof. induction k; simpl; auto. Qed.

(** One action raises [19 * length + counter] by at most 1. *)
Lemma act_rate (st : State) (a : Action) :
  19 * String.length (currentTranslation (fst (act st a)))
  + stabilityCount (fst (act st a))
  <= 19 * String.length (currentTranslation st) + stabilityCount st + 1.
Proof.
  destruct a as [[s|]|]; cbn [act]; try (simpl; lia).
  unfold debounce.
  destruct (negb (Symbol_eqb s Unknown) && Symbol_eqb s (lastSign st)).
  - destruct (Nat.eqb_spec (S (stabilityCount st)) STABILITY_THRESHOLD) as [E|E];
      cbn [fst currentTranslation stabilityCount]; [|lia].
    rewrite string_length_app, Symbol_str_length.
    unfold STABILITY_THRESHOLD in E. lia.
  - destruct (negb (Symbol_eqb s (lastSign st)));
      cbn [fst currentTranslation stabilityCount]; lia.
Qed.

Lemma exec_rate (acts : list Action) :
  forall st,
    19 * String.length (currentTranslation (exec st acts))
    + stabilityCount (exec st acts)
    <= 19 * String.length (currentTranslation st) + stabilityCount st
       + List.length acts.
Proof.
  induction acts as [|a acts IH]; intros st; cbn [exec List.length]; [lia|].
  specialize (IH (fst (act st a))). pose proof (act_rate st a). lia.
Qed.

(** One action keeps a transcript made of letters that way. *)
Lemma act_letters (st : State) (a : Action) :
  Forall letter_char (list_ascii_of_string (currentTranslation st)) ->
  Forall letter_char
    (list_ascii_of_string (currentTranslation (fst (act st a)))).
Proof.
  intros H. destruct a as [[s|]|]; cbn [act]; try assumption.
  - destruct (debounce_transcript st s) as [[-> _]|[-> Hw]]; [assumption|].
    destruct (debounce_commit_inv st s s Hw) as (Hs & _).
    rewrite list_ascii_app. apply Forall_app. split; [assumption|].
    unfold letter_char.
    destruct s; try contradiction; repeat constructor; tauto.
  - constructor.
Qed.

(** X1: between any two calls of a run from the initial state the counter
    is below the threshold: it takes the values 0 to 19 only. *)
Theorem counter_stays_below_threshold (acts : list Action) :
  stabilityCount (exec initial acts) < STABILITY_THRESHOLD
  /\ stabilityCount (exec initial acts) <= 19.
Proof.
  pose proof (count_below_threshold acts) as H.
  unfold STABILITY_THRESHOLD in *. lia.
Qed.

(** X2: typing is rate-limited.  After any [n] actions from the initial
    state, 19 times the length of the transcript plus the counter is at
    most [n]: a character costs at least 19 frames. *)
Theorem one_character_per_19_frames (acts : list Action) :
  19 * String.length (currentTranslation (exec initial acts))
  + stabilityCount (exec initial acts)
  <= List.length acts.
Proof. pose proof (exec_rate acts initial) as H. simpl in H. lia. Qed.

(** X3: the question mark is never typed: after any run from the initial
    state every character of the transcript is one of A, B, C, F, L. *)
Theorem transcript_has_letters_only (acts : list Action) :
  Forall letter_char
    (list_ascii_of_string (currentTranslation (exec initial acts))).
Proof.
  assert (G : forall st,
             Forall letter_char (list_ascii_of_string (currentTranslation st)) ->
             Forall letter_char
               (list_ascii_of_string (currentTranslation (exec st acts)))).
  { induction acts as [|a acts IH]; intros st H; cbn [exec]; [assumption|].
    apply IH, act_letters, H. }
  apply G. constructor.
Qed.

(** X4: over a run of frames, from any state, the transcript grows by as
    many characters as commit statuses are written. *)
Theorem characters_match_commit_statuses (st : State)
    (frames : list (option Symbol)) :
  String.length (currentTranslation (exec st (map Frame frames)))
  = String.length (currentTranslation st)
    + List.length (filter isCommitWrite (writes st (map Frame frames))).
Proof.
  revert st. induction frames as [|f frames IH]; intros st;
    cbn [map exec writes filter]; [simpl; lia|].
  rewrite IH. destruct f as [s|]; cbn [act].
  - destruct (debounce_transcript st s) as [[-> ->]|[-> ->]].
    + lia.
    + rewrite committedText_is_commit, string_length_app, Symbol_str_length.
      cbn [List.length]. lia.
  - cbn [noHand fst snd currentTranslation].
    change (isCommitWrite (Some noHandText)) with false. lia.
Qed.

(** X5: the closed form of a sustained hold.  Holding a sign other than
    Unknown from the initial state, the first character comes after 21
    frames and one more after every further 19: after [21 + 19 * m] frames
    the transcript is [m + 1] copies of the sign and the counter is 1. *)
Theorem sustained_hold_closed_form (s : Symbol) (m : nat) :
  s <> Unknown ->
  exec initial (updates s (21 + 19 * m)) = mkState (copies s (S m)) s 1.
Proof.
  intros Hs. induction m as [|m IH].
  - change (21 + 19 * 0) with 21.
    destruct (fresh_sign_commit initial s Hs) as [-> _];
      [simpl; congruence | reflexivity].
  - replace (21 + 19 * S m) with ((21 + 19 * m) + 19) by lia.
    unfold updates in *. rewrite repeat_app, exec_app, IH.
    apply (recommit_run (copies s (S m)) s Hs).
Qed.

Lemma sustained_hold_closed_form_witness :
  L <> Unknown
  /\ exec initial (updates L (21 + 19 * 2)) = mkState "LLL" L 1.
Proof.
  split; [discriminate|].
  apply (sustained_hold_closed_form L 2). discriminate.
Defined.

(** X6: one frame of anything else throws the progress away.  While a
    sign is being held (whatever the counter), a single frame that shows
    no hand or another sign, followed by up to 20 frames of the sign
    again, commits nothing and leaves the transcript as it was; only the
    21st frame after the interruption commits. *)
Theorem interruption_restarts_the_hold (st : State) (s : Symbol)
    (hand : option Symbol) (k : nat) :
  s <> Unknown -> lastSign st = s -> hand <> Some s -> k <= 20 ->
  currentTranslation (exec st (Frame hand :: updates s k))
  = currentTranslation st
  /\ filter isCommitWrite (writes st (Frame hand :: updates s k)) = []
  /\ currentTranslation (exec st (Frame hand :: updates s 21))
     = currentTranslation st ++ Symbol_str s.
Proof.
  intros Hs Hl Hh Hk.
  assert (Hstep : exists l w,
             act st (Frame hand) = (mkState (currentTranslation st) l 0, w)
             /\ s <> l /\ isCommitWrite w = false).
  { destruct hand as [t|]; cbn [act].
    - assert (Hne : t <> lastSign st) by congruence.
      rewrite (debounce_change st t Hne).
      exists t, (Some (changedText t)).
      split; [reflexivity | split; [congruence|]].
      apply changedText_is_not_commit.
    - exists Unknown, (Some noHandText).
      split; [reflexivity | split; [assumption | reflexivity]]. }
  destruct Hstep as (l & w & Hact & Hsl & Hw).
  cbn [exec writes filter]. rewrite Hact. cbn [fst snd]. rewrite Hw.
  split; [|split].
  - destruct k as [|k]; [reflexivity|].
    destruct (fresh_sign_run (mkState (currentTranslation st) l 0) s k Hs)
      as [-> _]; [exact Hsl | lia | reflexivity].
  - destruct k as [|k]; [reflexivity|].
    destruct (fresh_sign_run (mkState (currentTranslation st) l 0) s k Hs)
      as [_ ->]; [exact Hsl | lia |].
    cbn [filter]. rewrite changedText_is_not_commit. apply no_commit_in_holds.
  - destruct (fresh_sign_commit (mkState (currentTranslation st) l 0) s Hs)
      as [-> _]; [exact Hsl | reflexivity].
Qed.

Lemma interruption_restarts_the_hold_witness :
  currentTranslation
    (exec (mkState "B" A 18) (Frame (Some C) :: updates A 20)) = "B"
  /\ filter isCommitWrite
       (writes (mkState "B" A 18) (Frame (Some C) :: updates A 20)) = []
  /\ currentTranslation
       (exec (mkState "B" A 18) (Frame (Some C) :: updates A 21)) = "BA".
Proof.
  apply (interruption_restarts_the_hold (mkState "B" A 18) A (Some C) 20);
    [discriminate | reflexivity | discriminate | apply Nat.leb_le; reflexivity].
Defined.

(** A run of flickering frames keeps the counter at 0. *)
Lemma flickering_run (frames : list (option Symbol)) :
  forall st,
    flickering frames = true ->
    stabilityCount st = 0 ->
    lastSign st = Unknown
    \/ match frames with f :: _ => f <> Some (lastSign st) | [] => True end ->
    currentTranslation (exec st (map Frame frames)) = currentTranslation st
    /\ filter isCommitWrite (writes st (map Frame frames)) = [].
Proof.
  induction frames as [|f frames IH]; intros st Hfl Hc Hhead;
    [split; reflexivity|].
  assert (Hrest : flickering frames = true).
  { cbn [flickering] in Hfl. destruct frames; [reflexivity|].
    now apply andb_true_iff in Hfl. }
  assert (Hnext : match frames with
                  | f2 :: _ => frame_eqb f f2 = false
                  | [] => True
                  end).
  { cbn [flickering] in Hfl. destruct frames; [exact I|].
    apply andb_true_iff in Hfl as [Hfl _]. now apply negb_true_iff. }
  assert (Hstep : exists l w,
             act st (Frame f) = (mkState (currentTranslation st) l 0, w)
             /\ isCommitWrite w = false
             /\ (l = Unknown \/ f = Some l)).
  { destruct f as [t|]; cbn [act].
    - destruct (Symbol_eqb t (lastSign st)) eqn:E.
      + apply Symbol_eqb_eq in E.
        destruct Hhead as [Hu|Hne]; [|congruence].
        exists Unknown, None. unfold debounce.
        rewrite E, Hu. cbn. destruct st; cbn in *; subst.
        split; [reflexivity | split; [reflexivity | now left]].
      + assert (Hne : t <> lastSign st)
          by (intros ->; now rewrite Symbol_eqb_refl in E).
        rewrite (debounce_change st t Hne).
        exists t, (Some (changedText t)).
        split; [reflexivity | split; [apply changedText_is_not_commit | now right]].
    - exists Unknown, (Some noHandText).
      split; [reflexivity | split; [reflexivity | now left]]. }
  destruct Hstep as (l & w & Hact & Hw & Hl).
  cbn [map exec writes filter]. rewrite Hact. cbn [fst snd]. rewrite Hw.
  apply (IH (mkState (currentTranslation st) l 0) Hrest eq_refl).
  destruct Hl as [-> | ->]; [now left|]. right.
  destruct frames as [|f2 frames]; [exact I|].
  cbn [lastSign]. intros ->. cbn [frame_eqb] in Hnext.
  now rewrite Symbol_eqb_refl in Hnext.
Qed.

(** X7: a classification that changes at every frame types nothing: over
    frames in which no two neighbours report the same, from the initial
    state, the transcript stays empty and no commit status is written. *)
Theorem flickering_types_nothing (frames : list (option Symbol)) :
  flickering frames = true ->
  currentTranslation (exec initial (map Frame frames)) = ""
  /\ filter isCommitWrite (writes initial (map Frame frames)) = [].
Proof.
  intros Hfl. apply (flickering_run frames initial Hfl eq_refl). now left.
Qed.

Lemma flickering_types_nothing_witness :
  currentTranslation
    (exec initial
       (map Frame (List.concat (repeat [Some A; Some B; None; Some Unknown] 30))))
  = "".
Proof.
  apply (flickering_types_nothing
           (List.concat (repeat [Some A; Some B; None; Some Unknown] 30))).
  reflexivity.
Defined.

(** * Further properties of [onResults] *)

Lemma onResults_state_hand (st : State) (landmarks : list Landmark)
    (others : list (list Landmark)) (s : Symbol) :
  classifyLetterGesture (Some landmarks) = Normal s ->
  onResults_state st (Some (landmarks :: others)) = fst (debounce st s).
Proof.
  intros Hc. unfold onResults_state, onResults. rewrite Hc. cbn [bind].
  destruct (debounce st s). reflexivity.
Qed.

Lemma onResults_run_hand (landmarks : list Landmark)
    (others : list (list Landmark)) (s : Symbol) (k : nat) :
  classifyLetterGesture (Some landmarks) = Normal s ->
  forall st,
    onResults_run st (repeat (Some (landmarks :: others)) k)
    = exec st (updates s k).
Proof.
  intros Hc. unfold onResults_run.
  induction k as [|k IH]; intros st; [reflexivity|].
  cbn [repeat fold_left]. rewrite (onResults_state_hand st _ _ s Hc).
  rewrite IH. reflexivity.
Qed.

(** X8: further hands change the status line and nothing else.  With two
    or more hands detected the call throws exactly when it would with the
    first hand alone; otherwise it leaves the same state and shows the same
    sign, and the status it leaves is always the warning with the number
    of hands, also on the frame that commits a character. *)
Theorem extra_hands_only_change_the_status (st : State)
    (landmarks second : list Landmark) (others : list (list Landmark)) :
  onResults st (Some (landmarks :: second :: others))
  = match onResults st (Some [landmarks]) with
    | Normal (st', s, _) =>
      Normal (st', s, Some (warningText (2 + List.length others)))
    | TypeError => TypeError
    end.
Proof.
  unfold onResults.
  destruct (classifyLetterGesture (Some landmarks)) as [s|]; [|reflexivity].
  cbn [bind]. destruct (debounce st s). reflexivity.
Qed.

(** X9: the whole path from landmarks to text.  If the classifier names
    the first hand of the frame with a letter, then delivering that frame
    21 times from the initial state (with any number of further hands)
    types exactly that letter, and after each of the first 20 deliveries
    the transcript is still empty. *)
Theorem holding_a_hand_types_its_letter (landmarks : list Landmark)
    (others : list (list Landmark)) (s : Symbol) :
  classifyLetterGesture (Some landmarks) = Normal s -> s <> Unknown ->
  onResults_run initial (repeat (Some (landmarks :: others)) 21)
  = mkState (Symbol_str s) s 1
  /\ forall k, k <= 20 ->
       currentTranslation
         (onResults_run initial (repeat (Some (landmarks :: others)) k))
       = "".
Proof.
  intros Hc Hs. split.
  - rewrite (onResults_run_hand landmarks others s 21 Hc).
    destruct (fresh_sign_commit initial s Hs) as [-> _];
      [simpl; congruence | reflexivity].
  - intros k Hk. rewrite (onResults_run_hand landmarks others s k Hc).
    destruct k as [|k]; [reflexivity|].
    destruct (fresh_sign_run initial s k Hs) as [-> _];
      [simpl; congruence | lia | reflexivity].
Qed.

Lemma holding_a_hand_types_its_letter_witness :
  onResults_run initial (repeat (Some [arc; fist]) 21) = mkState "C" C 1.
Proof.
  apply (holding_a_hand_types_its_letter arc [fist] C);
    [reflexivity | discriminate].
Defined.

(** X10: a frame whose first hand has between 1 and 20 landmarks makes
    [onResults] throw before it assigns anything: the state, counter
    included, is what it was, whereas a frame without a hand resets the
    counter. *)
Theorem short_hand_frame_is_skipped (st : State) (landmarks : list Landmark)
    (others : list (list Landmark)) :
  0 < List.length landmarks -> List.length landmarks < 21 ->
  onResults st (Some (landmarks :: others)) = TypeError
  /\ onResults_state st (Some (landmarks :: others)) = st
  /\ onResults_state st None = mkState (currentTranslation st) Unknown 0.
Proof.
  intros Hpos Hshort. unfold onResults_state, onResults.
  rewrite (classify_short_throws landmarks Hpos Hshort).
  repeat split; reflexivity.
Qed.

Lemma short_hand_frame_is_skipped_witness :
  onResults_state (mkState "B" A 18) (Some [firstn 20 fist]) = mkState "B" A 18.
Proof.
  apply (short_hand_frame_is_skipped (mkState "B" A 18) (firstn 20 fist) []);
    apply Nat.ltb_lt; reflexivity.
Defined.

(** * Facts about Numbers *)

(** Read off the IEEE 754 specification of the primitive operations. *)
Section NumberFacts.

Lemma SFcompare_nan_r (a : spec_float) : SFcompare a S754_nan = None.
Proof. destruct a; reflexivity. Qed.

Lemma lt_nan_l (a b : float) : Prim2SF a = S754_nan -> lt a b = false.
Proof. intros H. unfold lt. rewrite ltb_spec, H. reflexivity. Qed.

Lemma lt_nan_r (a b : float) : Prim2SF b = S754_nan -> lt a b = false.
Proof.
  intros H. unfold lt. rewrite ltb_spec, H. unfold SFltb.
  now rewrite SFcompare_nan_r.
Qed.

Lemma SFcompare_refl (a : spec_float) :
  a <> S754_nan -> SFcompare a a = Some Eq.
Proof.
  destruct a as [s|s| |s m e]; intros H; try contradiction; cbn [SFcompare].
  - reflexivity.
  - destruct s; reflexivity.
  - rewrite Z.compare_refl, Pos.compare_cont_refl. destruct s; reflexivity.
Qed.

Lemma is_nan_Prim2SF (a : float) :
  PrimFloat.is_nan a = true -> Prim2SF a = S754_nan.
Proof.
  unfold PrimFloat.is_nan. rewrite eqb_spec. unfold SFeqb. intros H.
  destruct (Prim2SF a) eqn:E; try reflexivity;
    rewrite SFcompare_refl in H by discriminate; discriminate.
Qed.

Lemma is_finite_Prim2SF (a : float) :
  PrimFloat.is_finite a = true ->
  match Prim2SF a with
  | S754_zero _ | S754_finite _ _ _ => True
  | _ => False
  end.
Proof.
  unfold PrimFloat.is_finite, PrimFloat.is_nan, PrimFloat.is_infinity.
  rewrite !eqb_spec, abs_spec.
  change (Prim2SF infinity) with (S754_infinity false).
  destruct (Prim2SF a) as [s|s| |s m e]; cbn; try discriminate; auto.
  rewrite orb_true_r. discriminate.
Qed.

Lemma sub_self (a : float) :
  PrimFloat.is_finite a = true -> (a - a)%float = 0%float.
Proof.
  intros H. apply is_finite_Prim2SF in H. apply Prim2SF_inj.
  rewrite sub_spec. change (Prim2SF 0) with (S754_zero false).
  destruct (Prim2SF a) as [s|s| |s m e]; try contradiction.
  - destruct s; reflexivity.
  - unfold SF64sub, SFsub. rewrite Z.sub_diag. reflexivity.
Qed.

Lemma binary_round_aux_abs (s s' : bool) (m e : Z) (l : location) :
  SFabs (binary_round_aux prec emax s m e l)
  = SFabs (binary_round_aux prec emax s' m e l).
Proof.
  unfold binary_round_aux.
  destruct (shr_fexp prec emax m e l) as [mrs' e'].
  destruct (shr_fexp prec emax _ e' loc_Exact) as [mrs'' e''].
  destruct (shr_m mrs''); [reflexivity| |reflexivity].
  destruct (Z.leb e'' (Z.sub emax prec)); reflexivity.
Qed.

Lemma SFsub_abs_sym (a b : spec_float) :
  SFabs (SF64sub a b) = SFabs (SF64sub b a).
Proof.
  destruct a as [sa|sa| |sa ma ea], b as [sb|sb| |sb mb eb];
    try (destruct sa); try (destruct sb); try reflexivity.
  all: unfold SF64sub, SFsub; rewrite (Z.min_comm eb ea).
  all: match goal with
       | |- context [binary_normalize _ _ (Z.sub ?u ?v) _ _] =>
         replace (Z.sub v u) with (Z.opp (Z.sub u v)) by lia;
         destruct (Z.sub u v)
       end.
  all: cbn [binary_normalize Z.opp]; try reflexivity.
  all: unfold binary_round;
       match goal with
       | |- context [shl_align ?m ?e ?f] => destruct (shl_align m e f)
       end; apply binary_round_aux_abs.
Qed.

Lemma SFmul_self_abs (a b : spec_float) :
  SFabs a = SFabs b -> SF64mul a a = SF64mul b b.
Proof.
  destruct a as [sa|sa| |sa ma ea], b as [sb|sb| |sb mb eb]; cbn [SFabs];
    intros H; try discriminate; try injection H as ? ?; subst;
    try (destruct sa); try (destruct sb); reflexivity.
Qed.

Lemma Math_pow2_diff_sym (a b : float) :
  Math_pow2 (a - b) = Math_pow2 (b - a).
Proof.
  apply Prim2SF_inj. unfold Math_pow2. rewrite !mul_spec, !sub_spec.
  apply SFmul_self_abs, SFsub_abs_sym.
Qed.

End NumberFacts.

Lemma dist_nan_y (p q : Landmark) :
  Prim2SF (y p) = S754_nan -> Prim2SF (dist p q) = S754_nan.
Proof.
  intros H. unfold dist, Math_sqrt, Math_pow2.
  rewrite sqrt_spec, !add_spec, !mul_spec, !sub_spec, H.
  cbn [SF64sub SFsub SF64mul SFmul].
  unfold SF64add at 2.
  destruct (SF64mul (SF64sub (Prim2SF (x p)) (Prim2SF (x q)))
                    (SF64sub (Prim2SF (x p)) (Prim2SF (x q))));
    reflexivity.
Qed.

Lemma dist_self (p : Landmark) :
  finite_landmark p = true -> dist p p = 0%float.
Proof.
  unfold finite_landmark. intros H.
  apply andb_true_iff in H as [H Hz]. apply andb_true_iff in H as [Hx Hy].
  unfold dist. rewrite (sub_self _ Hx), (sub_self _ Hy), (sub_self _ Hz).
  reflexivity.
Qed.

Lemma dist_sym (p q : Landmark) : dist p q = dist q p.
Proof.
  unfold dist.
  now rewrite (Math_pow2_diff_sym (x p)), (Math_pow2_diff_sym (y p)),
    (Math_pow2_diff_sym (z p)).
Qed.

(** * Further properties of the classifier *)

(** The decision list on an array with all landmarks, once the five
    finger states are known. *)
Lemma classify_hand_cases (landmarks : list Landmark) (t i m r p : bool) :
  21 <= List.length landmarks ->
  isExtended landmarks THUMB = Normal t ->
  isExtended landmarks INDEX_FINGER = Normal i ->
  isExtended landmarks MIDDLE_FINGER = Normal m ->
  isExtended landmarks RING_FINGER = Normal r ->
  isExtended landmarks PINKY_FINGER = Normal p ->
  let handSize := dist (landmark landmarks LANDMARK_INDICES.WRIST)
                       (landmark landmarks LANDMARK_INDICES.PINKY_MCP) in
  let tipDist := dist (landmark landmarks LANDMARK_INDICES.INDEX_TIP)
                      (landmark landmarks LANDMARK_INDICES.PINKY_TIP) in
  let pinch := dist (landmark landmarks LANDMARK_INDICES.THUMB_TIP)
                    (landmark landmarks LANDMARK_INDICES.INDEX_TIP) in
  let tuck := dist (landmark landmarks LANDMARK_INDICES.THUMB_TIP)
                   (landmark landmarks LANDMARK_INDICES.INDEX_MCP) in
  classifyLetterGesture (Some landmarks)
  = Normal
      (if t && i && negb m && negb r && negb p then L
       else if lt pinch 0.08 && m && r && p then F
       else if i && m && r && p && lt tuck (handSize * 0.25)%float then B
       else if negb i && negb m && negb r && negb p
               && gt tipDist (handSize * 0.5)%float
               && gt tuck (handSize * 0.15)%float then C
       else if negb i && negb m && negb r && negb p then A
       else Unknown).
Proof.
  intros enough Ht Hi Hm Hr Hp handSize tipDist pinch tuck.
  unfold classifyLetterGesture.
  destruct (Nat.eqb_spec (List.length landmarks) 0) as [E|_]; [lia|].
  rewrite Ht, Hi, Hm, Hr, Hp.
  rewrite !(distance_hand landmarks enough) by reflexivity.
  cbn [bind]. fold handSize tipDist pinch tuck.
  destruct t, i, m, r, p; cbn [negb andb bind];
    destruct (lt pinch 0.08); cbn [negb andb bind]; try reflexivity;
    try (destruct (lt tuck (handSize * 0.25)%float); cbn [bind];
         reflexivity);
    destruct (gt tipDist (handSize * 0.5)%float); cbn [andb bind];
    try reflexivity;
    destruct (gt tuck (handSize * 0.15)%float); reflexivity.
Qed.

Lemma with_landmark_length (i : nat) (p : Landmark) (landmarks : list Landmark) :
  List.length (with_landmark i p landmarks) = List.length landmarks.
Proof.
  revert i; induction landmarks as [|q rest IH]; intros [|i]; simpl; auto.
Qed.

Lemma idx_with_landmark_other (i j : nat) (p : Landmark)
    (landmarks : list Landmark) :
  i <> j -> idx (with_landmark i p landmarks) j = idx landmarks j.
Proof.
  unfold idx. revert i j.
  induction landmarks as [|q rest IH]; intros [|i] [|j] Hne; simpl;
    try reflexivity; try contradiction.
  apply IH. congruence.
Qed.

(** The classifier on two arrays of the same length that agree outside
    the unread landmarks. *)
Lemma classify_agree (l l' : list Landmark) :
  List.length l = List.length l' ->
  (forall j, existsb (Nat.eqb j) unread_indices = false ->
             idx l j = idx l' j) ->
  classifyLetterGesture (Some l) = classifyLetterGesture (Some l').
Proof.
  intros Hlen H. unfold classifyLetterGesture, isExtended.
  cbn [is_THUMB fidx finger_indices nth]. rewrite Hlen.
  rewrite !H by reflexivity. reflexivity.
Qed.

(** X11: the classifier throws exactly on the non-empty arrays with fewer
    than 21 landmarks; on every other argument it returns. *)
Theorem classify_throws_exactly_on_short_arrays (landmarks : list Landmark) :
  classifyLetterGesture (Some landmarks) = TypeError
  <-> 0 < List.length landmarks /\ List.length landmarks < 21.
Proof.
  split.
  - intros Hthrow.
    destruct (Nat.eq_dec (List.length landmarks) 0) as [E0|Hpos].
    + unfold classifyLetterGesture in Hthrow. rewrite E0 in Hthrow.
      discriminate Hthrow.
    + destruct (le_lt_dec 21 (List.length landmarks)) as [Hbig|Hshort];
        [|lia].
      destruct (classify_defined landmarks Hbig) as [s Hs]. congruence.
  - intros [Hpos Hshort]. now apply classify_short_throws.
Qed.

(** X12: the classifier never looks at the thumb's MCP and IP joints nor
    at any DIP joint: replacing one of these landmarks, in an array of any
    length, leaves the outcome (sign or throw) unchanged. *)
Theorem unread_landmarks_do_not_matter (landmarks : list Landmark)
    (i : nat) (p : Landmark) :
  In i unread_indices ->
  classifyLetterGesture (Some (with_landmark i p landmarks))
  = classifyLetterGesture (Some landmarks).
Proof.
  intros Hin. apply classify_agree; [apply with_landmark_length|].
  intros j Hj. apply idx_with_landmark_other. intros <-.
  assert (Hex : existsb (Nat.eqb i) unread_indices = true).
  { apply existsb_exists. exists i. split; [assumption | apply Nat.eqb_refl]. }
  congruence.
Qed.

Lemma unread_landmarks_do_not_matter_witness :
  classifyLetterGesture
    (Some (with_landmark LANDMARK_INDICES.RING_DIP (mkLandmark 9 9 9) arc))
  = classifyLetterGesture (Some arc).
Proof.
  apply (unread_landmarks_do_not_matter arc LANDMARK_INDICES.RING_DIP).
  simpl. tauto.
Defined.

(** X13: every answer has its shape.  On an array with all landmarks:
    L means thumb and index extended and the other three curled; F means
    middle, ring and pinky extended with thumb and index tips closer than
    0.08; B means the four fingers extended with the thumb tip closer to
    the index MCP than a quarter of the hand size; C and A mean the four
    fingers curled (C with the wide arc and the thumb away); Unknown means
    at least one of the four fingers is extended. *)
Theorem every_answer_has_its_shape (landmarks : list Landmark)
    (t i m r p : bool) (s : Symbol) :
  21 <= List.length landmarks ->
  isExtended landmarks THUMB = Normal t ->
  isExtended landmarks INDEX_FINGER = Normal i ->
  isExtended landmarks MIDDLE_FINGER = Normal m ->
  isExtended landmarks RING_FINGER = Normal r ->
  isExtended landmarks PINKY_FINGER = Normal p ->
  classifyLetterGesture (Some landmarks) = Normal s ->
  let handSize := dist (landmark landmarks LANDMARK_INDICES.WRIST)
                       (landmark landmarks LANDMARK_INDICES.PINKY_MCP) in
  let tipDist := dist (landmark landmarks LANDMARK_INDICES.INDEX_TIP)
                      (landmark landmarks LANDMARK_INDICES.PINKY_TIP) in
  let pinch := dist (landmark landmarks LANDMARK_INDICES.THUMB_TIP)
                    (landmark landmarks LANDMARK_INDICES.INDEX_TIP) in
  let tuck := dist (landmark landmarks LANDMARK_INDICES.THUMB_TIP)
                   (landmark landmarks LANDMARK_INDICES.INDEX_MCP) in
  match s with
  | L => t = true /\ i = true /\ m = false /\ r = false /\ p = false
  | F => m = true /\ r = true /\ p = true /\ lt pinch 0.08 = true
  | B => i = true /\ m = true /\ r = true /\ p = true
         /\ lt tuck (handSize * 0.25)%float = true
         /\ lt pinch 0.08 = false
  | C => i = false /\ m = false /\ r = false /\ p = false
         /\ gt tipDist (handSize * 0.5)%float = true
         /\ gt tuck (handSize * 0.15)%float = true
  | A => i = false /\ m = false /\ r = false /\ p = false
         /\ (gt tipDist (handSize * 0.5)%float = false
             \/ gt tuck (handSize * 0.15)%float = false)
  | Unknown => i = true \/ m = true \/ r = true \/ p = true
  end.
Proof.
  intros enough Ht Hi Hm Hr Hp Hs handSize tipDist pinch tuck.
  rewrite (classify_hand_cases landmarks t i m r p enough Ht Hi Hm Hr Hp)
    in Hs.
  fold handSize tipDist pinch tuck in Hs.
  destruct t, i, m, r, p; cbn [negb andb] in Hs;
    destruct (lt pinch 0.08); cbn [negb andb] in Hs;
    destruct (lt tuck (handSize * 0.25)%float);
    destruct (gt tipDist (handSize * 0.5)%float);
    destruct (gt tuck (handSize * 0.15)%float); cbn [negb andb] in Hs;
    injection Hs as <-; intuition congruence.
Qed.

Lemma every_answer_has_its_shape_witness :
  classifyLetterGesture (Some arc) = Normal C
  /\ gt (dist (landmark arc LANDMARK_INDICES.INDEX_TIP)
               (landmark arc LANDMARK_INDICES.PINKY_TIP))
         (dist (landmark arc LANDMARK_INDICES.WRIST)
               (landmark arc LANDMARK_INDICES.PINKY_MCP) * 0.5)%float
     = true.
Proof.
  split; [reflexivity|].
  exact (proj1 (proj2 (proj2 (proj2 (proj2
           (every_answer_has_its_shape arc true false false false false C
              (le_n 21) eq_refl eq_refl eq_refl eq_refl eq_refl
              eq_refl)))))).
Defined.

(** X14: an open hand is F, B or Unknown, in this order.  With all four
    fingers extended, whatever the thumb test says, the answer is F when
    thumb and index tips are closer than 0.08 (also when the thumb is
    tucked as for B), else B when the thumb tip is closer to the index MCP
    than a quarter of the hand size, else Unknown. *)
Theorem open_hand_is_F_B_or_Unknown (landmarks : list Landmark) :
  21 <= List.length landmarks ->
  isExtended landmarks INDEX_FINGER = Normal true ->
  isExtended landmarks MIDDLE_FINGER = Normal true ->
  isExtended landmarks RING_FINGER = Normal true ->
  isExtended landmarks PINKY_FINGER = Normal true ->
  let handSize := dist (landmark landmarks LANDMARK_INDICES.WRIST)
                       (landmark landmarks LANDMARK_INDICES.PINKY_MCP) in
  let pinch := dist (landmark landmarks LANDMARK_INDICES.THUMB_TIP)
                    (landmark landmarks LANDMARK_INDICES.INDEX_TIP) in
  let tuck := dist (landmark landmarks LANDMARK_INDICES.THUMB_TIP)
                   (landmark landmarks LANDMARK_INDICES.INDEX_MCP) in
  classifyLetterGesture (Some landmarks)
  = Normal (if lt pinch 0.08 then F
            else if lt tuck (handSize * 0.25)%float then B
            else Unknown).
Proof.
  intros enough Hi Hm Hr Hp handSize pinch tuck.
  destruct (isExtended_total landmarks enough THUMB) as [t Ht].
  rewrite (classify_hand_cases landmarks t true true true true enough
             Ht Hi Hm Hr Hp).
  fold handSize pinch tuck.
  destruct t; cbn [negb andb]; rewrite ?andb_true_r;
    destruct (lt pinch 0.08), (lt tuck (handSize * 0.25)%float); reflexivity.
Qed.

Lemma open_hand_is_F_B_or_Unknown_witness :
  classifyLetterGesture (Some flat_hand) = Normal B.
Proof.
  apply (open_hand_is_F_B_or_Unknown flat_hand);
    [apply Nat.leb_le|..]; reflexivity.
Defined.

(** X15: coordinates that are not numbers are not rejected.  On an array
    with all landmarks, if the [y] of the four fingertips is NaN, every
    finger test fails, the tip spread is NaN, and the answer is A. *)
Theorem nan_fingertips_read_as_A (landmarks : list Landmark) :
  21 <= List.length landmarks ->
  PrimFloat.is_nan (y (landmark landmarks LANDMARK_INDICES.INDEX_TIP)) = true ->
  PrimFloat.is_nan (y (landmark landmarks LANDMARK_INDICES.MIDDLE_TIP)) = true ->
  PrimFloat.is_nan (y (landmark landmarks LANDMARK_INDICES.RING_TIP)) = true ->
  PrimFloat.is_nan (y (landmark landmarks LANDMARK_INDICES.PINKY_TIP)) = true ->
  classifyLetterGesture (Some landmarks) = Normal A.
Proof.
  intros enough Hi Hm Hr Hp.
  apply is_nan_Prim2SF in Hi, Hm, Hr, Hp.
  assert (Hcurled : forall finger,
             finger <> THUMB ->
             Prim2SF (y (landmark landmarks (fidx finger 3))) = S754_nan ->
             isExtended landmarks finger = Normal false).
  { intros finger Hf Hnan. rewrite isExtended_finger; [|assumption|].
    - unfold gt. fold (lt (y (landmark landmarks (fidx finger 3)))
                           (y (landmark landmarks (fidx finger 1)))).
      now rewrite (lt_nan_l _ _ Hnan).
    - eapply Nat.lt_le_trans; [|exact enough].
      destruct finger; apply Nat.ltb_lt; reflexivity. }
  rewrite (classify_all_curled landmarks enough);
    try (apply Hcurled; [discriminate | assumption]).
  unfold gt at 1.
  fold (lt (dist (landmark landmarks LANDMARK_INDICES.WRIST)
                 (landmark landmarks LANDMARK_INDICES.PINKY_MCP) * 0.5)%float
           (dist (landmark landmarks LANDMARK_INDICES.INDEX_TIP)
                 (landmark landmarks LANDMARK_INDICES.PINKY_TIP))).
  now rewrite (lt_nan_r _ _ (dist_nan_y _ _ Hi)).
Qed.

Lemma nan_fingertips_read_as_A_witness :
  classifyLetterGesture (Some fist_nan_tips) = Normal A.
Proof.
  apply (nan_fingertips_read_as_A fist_nan_tips);
    [apply Nat.leb_le|..]; reflexivity.
Defined.

(** X16: the test of the four fingers looks at heights only: putting the
    [x] and [z] of every landmark to 0 leaves its outcome (true, false or
    throw) unchanged, on an array of any length. *)
Theorem finger_test_ignores_x_and_z (landmarks : list Landmark)
    (finger : Finger) :
  finger <> THUMB ->
  isExtended (map flattened landmarks) finger = isExtended landmarks finger.
Proof.
  intros Hf. unfold isExtended, idx.
  destruct finger; try contradiction; cbn [is_THUMB];
    rewrite !nth_error_map;
    repeat match goal with
           | |- context [nth_error landmarks ?j] =>
             destruct (nth_error landmarks j)
           end; reflexivity.
Qed.

Lemma finger_test_ignores_x_and_z_witness :
  isExtended (map flattened flat_hand) RING_FINGER = Normal true.
Proof.
  rewrite (finger_test_ignores_x_and_z flat_hand RING_FINGER);
    [reflexivity | discriminate].
Defined.

(** X17: [distance] is symmetric, bit for bit, on any two landmarks, and
    with an [undefined] argument it throws in either order. *)
Theorem distance_is_symmetric (p1 p2 : option Landmark) :
  distance p1 p2 = distance p2 p1.
Proof.
  destruct p1 as [p|], p2 as [q|]; try reflexivity.
  rewrite !distance_defined. f_equal. apply dist_sym.
Qed.

(** X18: the distance of a landmark with finite coordinates to itself is
    exactly 0. *)
Theorem distance_to_itself_is_zero (p : Landmark) :
  finite_landmark p = true -> distance (Some p) (Some p) = Normal 0%float.
Proof.
  intros Hfin. rewrite distance_defined. f_equal. now apply dist_self.
Qed.

Lemma distance_to_itself_is_zero_witness :
  distance (Some (mkLandmark 0.4 0.75 (-0.01))) 
           (Some (mkLandmark 0.4 0.75 (-0.01))) = Normal 0%float.
Proof.
  apply (distance_to_itself_is_zero (mkLandmark 0.4 0.75 (-0.01))).
  reflexivity.
Defined.

(** X19: what the thumb test comes to.  On an array that reaches the
    thumb tip and whose thumb CMC has finite coordinates, the thumb counts
    as extended exactly when its tip is at a distance above 0 from the CMC
    and nearer to the camera than the CMC; the thumb's MCP plays no part. *)
Theorem thumb_test_in_effect (landmarks : list Landmark) :
  LANDMARK_INDICES.THUMB_TIP < List.length landmarks ->
  finite_landmark (landmark landmarks LANDMARK_INDICES.THUMB_CMC) = true ->
  isExtended landmarks THUMB
  = Normal (gt (dist (landmark landmarks LANDMARK_INDICES.THUMB_CMC)
                     (landmark landmarks LANDMARK_INDICES.THUMB_TIP)) 0
            && lt (z (landmark landmarks LANDMARK_INDICES.THUMB_TIP))
                  (z (landmark landmarks LANDMARK_INDICES.THUMB_CMC))).
Proof.
  intros Hlen Hfin. rewrite (isExtended_thumb landmarks Hlen).
  cbv zeta. rewrite (dist_self _ Hfin). reflexivity.
Qed.

Lemma thumb_test_in_effect_witness :
  isExtended pointing_thumb_tucked THUMB = Normal true.
Proof.
  rewrite (thumb_test_in_effect pointing_thumb_tucked);
    [reflexivity | apply Nat.ltb_lt; reflexivity | reflexivity].
Defined.
